(** * Smart-File-Organizer: tagging fallback, similar-file matcher, auto-organizer

    A shallow embedding of
      - [src/server/services/gemini.ts]  (generateFileTags, generateFallbackTags),
      - [src/server/storage.ts]          (the SupabaseStorage data access layer),
      - the route handlers [POST /api/files/:id/apply-to-similar] and
        [POST /api/organize-files] of registerRoutes,
    followed by the properties stated about them.

    JavaScript strings are modelled as [string]; [toLowerCase] folds the ASCII
    letters and leaves every other code unit as it is.  The hosted store is a
    pair of tables threaded through a state-and-exception monad; the replies of
    the generative-AI endpoint, the failures of the store and the identities it
    assigns to new rows come from an oracle indexed by the number of the call. *)

From Stdlib Require Import String Ascii List Bool Arith Lia ZArith QArith_base DecimalString
  Permutation.
Import ListNotations.
Local Open Scope string_scope.
Local Open Scope list_scope.
Local Open Scope nat_scope.

(* ------------------------------------------------------------------------- *)
(** ** The JavaScript string and array primitives the code uses              *)
(* ------------------------------------------------------------------------- *)

Module Js.

(** [c.toLowerCase()] on one code unit. *)
Definition lower_char (c : ascii) : ascii :=
  let n := nat_of_ascii c in
  if ((65 <=? n) && (n <=? 90))%nat then ascii_of_nat (n + 32) else c.

(** [s.toLowerCase()]. *)
Fixpoint toLowerCase (s : string) : string :=
  match s with
  | EmptyString => EmptyString
  | String c r => String (lower_char c) (toLowerCase r)
  end.

(** [s.includes(sub)]: [sub] occurs in [s] at some position. *)
Fixpoint includes (s sub : string) : bool :=
  String.prefix sub s ||
  match s with
  | EmptyString => false
  | String _ r => includes r sub
  end.

(** [s.split(sep)] for a separator of one character: never the empty array. *)
Fixpoint split (sep : ascii) (s : string) : list string :=
  match s with
  | EmptyString => [EmptyString]
  | String c r =>
      if Ascii.eqb c sep then EmptyString :: split sep r
      else match split sep r with
           | [] => [String c EmptyString]
           | w :: ws => String c w :: ws
           end
  end.

(** [arr.pop()]: the last element, [undefined] on the empty array. *)
Fixpoint pop (l : list string) : option string :=
  match l with
  | [] => None
  | [x] => Some x
  | _ :: r => pop r
  end.

(** [arr[0]]. *)
Definition first (l : list string) : option string := hd_error l.

(** [x?.toLowerCase()]. *)
Definition opt_toLowerCase (x : option string) : option string :=
  option_map toLowerCase x.

(** [a === b] on values that are a string or [undefined]. *)
Definition opt_eqb (a b : option string) : bool :=
  match a, b with
  | Some x, Some y => String.eqb x y
  | None, None => true
  | _, _ => false
  end.

(** The class [[a-z0-9]] of the keyword regular expression. *)
Definition is_alnum (c : ascii) : bool :=
  let n := nat_of_ascii c in
  (((97 <=? n) && (n <=? 122)) || ((48 <=? n) && (n <=? 57)))%nat.

(** [s.replace(/[^a-z0-9]/g, ' ')]. *)
Fixpoint replace_non_alnum (s : string) : string :=
  match s with
  | EmptyString => EmptyString
  | String c r =>
      String (if is_alnum c then c else " "%char) (replace_non_alnum r)
  end.

(** Truthiness of a value that is a string or [undefined]/[null]. *)
Definition truthy (x : option string) : bool :=
  match x with
  | Some s => negb (String.eqb s "")
  | None => false
  end.

(** Every character of [s] is in [[a-z0-9]]. *)
Fixpoint all_alnum (s : string) : bool :=
  match s with
  | EmptyString => true
  | String c r => is_alnum c && all_alnum r
  end.

End Js.

(* ------------------------------------------------------------------------- *)
(** ** gemini.ts: the tagging result and the rule-based fallback             *)
(* ------------------------------------------------------------------------- *)

Module Gemini.
Import Js.

(** [interface FileTagging]. *)
Record FileTagging := mkTagging {
  tags : list string;
  suggestedFolderName : option string;
  suggestedFileName : option string;
  confidence : Q
}.

(** The two variables [generateFallbackTags] mutates: the [tags] array and
    [suggestedFolderName]. *)
Definition Locals : Type := (list string * option string)%type.

Definition Stmt : Type := Locals -> Locals.

Definition skip : Stmt := fun st => st.

(** [tags.push(t1, ..., tn)]. *)
Definition push (ts : list string) : Stmt :=
  fun st => (fst st ++ ts, snd st).

(** [suggestedFolderName = name]. *)
Definition setFolder (name : string) : Stmt :=
  fun st => (fst st, Some name).

Definition seq (a b : Stmt) : Stmt := fun st => b (a st).

Definition ite (c : bool) (a b : Stmt) : Stmt :=
  fun st => if c then a st else b st.

Declare Scope stmt_scope.
Delimit Scope stmt_scope with stmt.
Notation "a ;; b" := (seq a b) (at level 61, right associativity) : stmt_scope.
Notation "'If' c 'Then' a 'Else' b" := (ite c a b)
  (at level 60, c at level 50, a at level 61, b at level 60, right associativity) : stmt_scope.
Notation "'When' c 'Do' a" := (ite c a skip)
  (at level 60, c at level 50, a at level 61) : stmt_scope.

(** The body of [generateFallbackTags] between the declarations and the
    [return], statement by statement. *)
Definition fallbackBody (lowerName lowerType : string) : Stmt :=
  ((* File type based tags and folder suggestions *)
   (When includes lowerType "pdf" || includes lowerType "doc" Do
      push ["document"] ;;
      (* Specific document categories *)
      If includes lowerName "resume" || includes lowerName "cv" Then
        push ["resume"; "personal"] ;; setFolder "Resumes"
      Else If includes lowerName "assignment" || includes lowerName "homework" Then
        push ["assignment"; "work"] ;; setFolder "Assignments"
      Else If includes lowerName "cover" && includes lowerName "letter" Then
        push ["work"; "application"] ;; setFolder "Cover Letters"
      Else If includes lowerName "job" || includes lowerName "application" Then
        push ["work"; "application"] ;; setFolder "Job Applications"
      Else
        setFolder "Documents") ;;
   (When includes lowerType "image" || includes lowerType "jpg" || includes lowerType "png" Do
      push ["image"] ;;
      If includes lowerName "photo" || includes lowerName "pic" Then
        push ["photo"] ;; setFolder "Photos"
      Else If includes lowerName "screenshot" Then
        push ["screenshot"] ;; setFolder "Screenshots"
      Else If includes lowerName "wallpaper" || includes lowerName "background" Then
        push ["wallpaper"] ;; setFolder "Wallpapers"
      Else
        setFolder "Images") ;;
   (When includes lowerType "excel" || includes lowerType "csv" || includes lowerType "spreadsheet" Do
      push ["spreadsheet"; "data"] ;;
      If includes lowerName "customer" || includes lowerName "client" Then
        push ["customer"] ;; setFolder "Customer Data"
      Else If includes lowerName "finance" || includes lowerName "loan" || includes lowerName "payment" Then
        push ["finance"] ;; setFolder "Financial Data"
      Else
        setFolder "Spreadsheets") ;;
   (When includes lowerType "video" || includes lowerType "mp4" Do
      push ["video"] ;; setFolder "Videos") ;;
   (* Content based tags from filename *)
   (When includes lowerName "report" Do push ["report"]) ;;
   (When includes lowerName "invoice" || includes lowerName "receipt" Do
      push ["finance"] ;; setFolder "Financial Documents") ;;
   (When includes lowerName "project" Do
      push ["project"] ;; setFolder "Projects") ;;
   (When includes lowerName "presentation" || includes lowerName "ppt" Do
      push ["presentation"] ;; setFolder "Presentations"))%stmt.

(** [function generateFallbackTags(fileName, fileType): FileTagging]. *)
Definition generateFallbackTags (fileName fileType : string) : FileTagging :=
  let lowerName := toLowerCase fileName in
  let lowerType := toLowerCase fileType in
  let st := fallbackBody lowerName lowerType ([], None) in
  {| tags := if (0 <? length (fst st))%nat then fst st else ["uncategorized"];
     suggestedFolderName := snd st;
     suggestedFileName := None;
     confidence := (7 # 10)%Q |}.

End Gemini.

(* ------------------------------------------------------------------------- *)
(** ** shared/schema.ts and storage.ts: rows, tables, the data access layer   *)
(* ------------------------------------------------------------------------- *)

Module Storage.
Import Js Gemini.

(** A row of the [files] table, with the column names of the store. *)
Record File := mkFile {
  id : string;
  original_name : string;
  display_name : string;
  file_type : string;
  file_size : Z;
  storage_path : string;
  file_tags : list string;
  ai_generated : bool;
  user_id : string;
  folder_id : option string;
  uploaded_at : Z;
  metadata : list (string * string)
}.

(** A row of the [folders] table. *)
Record Folder := mkFolder {
  folder_ident : string;
  name : string;
  parent_id : option string;
  folder_user_id : string;
  created_at : Z;
  is_ai_generated : bool
}.

(** [InsertFolder]: a folder row without [id] and [createdAt]. *)
Record InsertFolder := mkInsertFolder {
  ins_name : string;
  ins_parentId : option string;
  ins_userId : string;
  ins_isAiGenerated : bool
}.

(** The keys of [Partial<InsertFile>] that the handlers pass to [updateFile]:
    [tags] and [folderId], each present or absent in the object. *)
Record FileUpdates := mkUpdates {
  upd_tags : option (list string);
  upd_folderId : option string
}.

(** The hosted store and the number of calls made so far to the AI endpoint
    and to the store.  Both tables are kept in the order their listings
    return them (newest first). *)
Record World := mkWorld {
  files : list File;
  folders : list Folder;
  ai_calls : nat;
  db_calls : nat
}.

(** What the outside answers.  [gemini n fileName fileType] is the parsed
    reply of the [n]-th call to the endpoint, [None] when the call fails, the
    reply is empty or it does not parse.  [db_error n] says that the [n]-th
    call to the store comes back with an error (and changes nothing);
    [fresh_id n] and [now n] are the identity and the timestamp the store
    gives a row inserted by its [n]-th call. *)
Record Oracle := mkOracle {
  gemini : nat -> string -> string -> option FileTagging;
  db_error : nat -> bool;
  fresh_id : nat -> string;
  now : nat -> Z
}.

(** An asynchronous computation either returns a value or throws. *)
Inductive Outcome (A : Type) : Type :=
| Returned (a : A)
| Thrown.
Arguments Returned {A} a.
Arguments Thrown {A}.

Definition M (A : Type) : Type := World -> Outcome A * World.

Definition ret {A} (a : A) : M A := fun w => (Returned a, w).

Definition throw {A} : M A := fun w => (Thrown, w).

Definition bind {A B} (m : M A) (k : A -> M B) : M B :=
  fun w =>
    match m w with
    | (Returned a, w') => k a w'
    | (Thrown, w') => (Thrown, w')
    end.

(** [try { m } catch (error) { h }]. *)
Definition try_catch {A} (m : M A) (h : M A) : M A :=
  fun w =>
    match m w with
    | (Returned a, w') => (Returned a, w')
    | (Thrown, w') => h w'
    end.

Declare Scope io_scope.
Delimit Scope io_scope with io.
Notation "x <- m ;; k" := (bind m (fun x => k))
  (at level 61, m at next level, right associativity) : io_scope.
Notation "' pat <- m ;; k" := (bind m (fun x => match x with pat => k end))
  (at level 61, pat pattern, m at next level, right associativity) : io_scope.

(** [for (const x of l) { s = body(s, x) }], leaving the loop when the body
    throws. *)
Fixpoint for_of {A S} (l : list A) (body : S -> A -> M S) (s : S) : M S :=
  match l with
  | [] => ret s
  | x :: r => bind (body s x) (for_of r body)
  end.

Section WithOracle.
Variable env : Oracle.

(** One call to the store: its number, and the counter moved on. *)
Definition db_call (w : World) : nat * World :=
  (db_calls w,
   {| files := files w; folders := folders w;
      ai_calls := ai_calls w; db_calls := S (db_calls w) |}).

(** [if (userId) query = query.eq('user_id', userId)]. *)
Definition owned_by (userId owner : string) : bool :=
  if truthy (Some userId) then String.eqb owner userId else true.

(** [.eq('id', id)] and the owner filter, on a file row. *)
Definition selects (ident userId : string) (f : File) : bool :=
  String.eqb (id f) ident && owned_by userId (user_id f).

(** [.single()]: the row when exactly one is selected, an error otherwise. *)
Definition single {A} (rows : list A) : option A :=
  match rows with
  | [r] => Some r
  | _ => None
  end.

(** [.update(updates)] receives the object of the caller as it is, so the
    store reads its keys as column names.  [tags] is a column of [files];
    [folderId] is none: the column is [folder_id], the name under which
    [createFile] writes it.  The store answers an update that names a column
    the table does not have with an error. *)
Definition known_columns (u : FileUpdates) : bool :=
  match upd_folderId u with
  | Some _ => false
  | None => true
  end.

(** An accepted update on one row: the columns named by the keys are
    overwritten, the others are left as they are. *)
Definition apply_updates (u : FileUpdates) (f : File) : File :=
  {| id := id f;
     original_name := original_name f;
     display_name := display_name f;
     file_type := file_type f;
     file_size := file_size f;
     storage_path := storage_path f;
     file_tags := match upd_tags u with Some t => t | None => file_tags f end;
     ai_generated := ai_generated f;
     user_id := user_id f;
     folder_id := folder_id f;
     uploaded_at := uploaded_at f;
     metadata := metadata f |}.

(** [storage.getFile(id, userId)]: [undefined] on any error. *)
Definition getFile (ident userId : string) : M (option File) :=
  fun w =>
    let '(n, w1) := db_call w in
    if db_error env n then (Returned None, w1)
    else (Returned (single (filter (selects ident userId) (files w1))), w1).

(** [storage.getAllFiles(userId)]: throws on an error. *)
Definition getAllFiles (userId : string) : M (list File) :=
  fun w =>
    let '(n, w1) := db_call w in
    if db_error env n then (Thrown, w1)
    else (Returned (filter (fun f => owned_by userId (user_id f)) (files w1)), w1).

(** [storage.updateFile(id, updates, userId)]: the selected rows are
    overwritten; the updated row is returned when there is exactly one,
    [undefined] on any error, among them the refusal of an unknown column,
    which leaves every row as it was. *)
Definition updateFile (ident : string) (u : FileUpdates) (userId : string)
  : M (option File) :=
  fun w =>
    let '(n, w1) := db_call w in
    if db_error env n then (Returned None, w1)
    else if negb (known_columns u) then (Returned None, w1)
    else
      let rows := map (fun f => if selects ident userId f then apply_updates u f else f)
                      (files w1) in
      (Returned (single (filter (selects ident userId) rows)),
       {| files := rows; folders := folders w1;
          ai_calls := ai_calls w1; db_calls := db_calls w1 |}).

(** [storage.createFolder(insertFolder)]: throws on an error. *)
Definition createFolder (ins : InsertFolder) : M Folder :=
  fun w =>
    let '(n, w1) := db_call w in
    if db_error env n then (Thrown, w1)
    else
      let row := {| folder_ident := fresh_id env n;
                    name := ins_name ins;
                    parent_id := if truthy (ins_parentId ins) then ins_parentId ins else None;
                    folder_user_id := ins_userId ins;
                    created_at := now env n;
                    is_ai_generated := ins_isAiGenerated ins |} in
      (Returned row,
       {| files := files w1; folders := row :: folders w1;
          ai_calls := ai_calls w1; db_calls := db_calls w1 |}).

(** [storage.getAllFolders(userId)]: throws on an error. *)
Definition getAllFolders (userId : string) : M (list Folder) :=
  fun w =>
    let '(n, w1) := db_call w in
    if db_error env n then (Thrown, w1)
    else (Returned (filter (fun d => owned_by userId (folder_user_id d)) (folders w1)), w1).

(** [generateFileTags(fileName, fileType)] of gemini.ts: the reply of the
    endpoint, and the fallback in the [catch] of any failure. *)
Definition generateFileTags (fileName fileType : string) : M FileTagging :=
  fun w =>
    let w1 := {| files := files w; folders := folders w;
                 ai_calls := S (ai_calls w); db_calls := db_calls w |} in
    match gemini env (ai_calls w) fileName fileType with
    | Some data => (Returned data, w1)
    | None => (Returned (generateFallbackTags fileName fileType), w1)
    end.

End WithOracle.

End Storage.

(* ------------------------------------------------------------------------- *)
(** ** registerRoutes: the similar-file matcher and the auto-organizer        *)
(* ------------------------------------------------------------------------- *)

Module Routes.
Import Js Gemini Storage.
Local Open Scope io_scope.

(** [res.json(body)], or [res.status(code).json({ error })]. *)
Inductive Response (A : Type) : Type :=
| Json (body : A)
| Status (code : nat).
Arguments Json {A} body.
Arguments Status {A} code.

(** The keyword list of a file name:
    [name.toLowerCase().replace(/[^a-z0-9]/g, ' ').split(' ').filter(word => word.length > 2)]. *)
Definition keywordsOf (original_name : string) : list string :=
  filter (fun word => (2 <? String.length word)%nat)
         (split " " (replace_non_alnum (toLowerCase original_name))).

Definition sameMainType (sourceFile file : File) : bool :=
  let sourceMainType := opt_toLowerCase (first (split "/" (file_type sourceFile))) in
  let fileMainType := opt_toLowerCase (first (split "/" (file_type file))) in
  opt_eqb sourceMainType fileMainType.

Definition sameExactType (sourceFile file : File) : bool :=
  String.eqb (file_type file) (file_type sourceFile).

Definition sameExtension (sourceFile file : File) : bool :=
  let sourceExt := opt_toLowerCase (pop (split "." (original_name sourceFile))) in
  let fileExt := opt_toLowerCase (pop (split "." (original_name file))) in
  opt_eqb sourceExt fileExt.

Definition hasCommonKeywords (sourceFile file : File) : bool :=
  let sourceKeywords := keywordsOf (original_name sourceFile) in
  let fileKeywords := keywordsOf (original_name file) in
  let commonKeywords :=
    filter (fun keyword =>
              existsb (fun fKeyword =>
                         includes fKeyword keyword ||
                         includes keyword fKeyword ||
                         String.eqb fKeyword keyword)
                      fileKeywords)
           sourceKeywords in
  (0 <? length commonKeywords)%nat.

(** [const isMatch = sameExactType || (sameMainType && sameExtension) ||
    (sameExtension && hasCommonKeywords)]. *)
Definition isMatch (sourceFile file : File) : bool :=
  sameExactType sourceFile file ||
  (sameMainType sourceFile file && sameExtension sourceFile file) ||
  (sameExtension sourceFile file && hasCommonKeywords sourceFile file).

(** The callback of [allFiles.filter]: the source file is excluded first. *)
Definition similarTo (ident : string) (sourceFile file : File) : bool :=
  if String.eqb (id file) ident then false
  else isMatch sourceFile file.

Definition similarFilesOf (ident : string) (sourceFile : File) (allFiles : list File)
  : list File :=
  filter (similarTo ident sourceFile) allFiles.

(** The body of the reply of apply-to-similar. *)
Record ApplyReply := mkApplyReply {
  sourceFile : File;
  updatedFiles : list File;
  count : nat;
  similarFilesFound : nat
}.

(** The body of the reply of organize-files (without its message text). *)
Record OrganizeReply := mkOrganizeReply {
  success : bool;
  foldersCreated : nat;
  filesMoved : nat
}.

(** [const organizedCount = { created: 0, moved: 0 }]. *)
Record Counters := mkCounters {
  created : nat;
  moved : nat
}.

Section WithOracle.
Variable env : Oracle.

(** One turn of the loop over [similarFiles]. *)
Definition applyTagsTo (userId : string) (sourceFile : File)
           (updatedFiles : list File) (file : File) : M (list File) :=
  try_catch
    (updatedFile <- updateFile env (id file)
                      {| upd_tags := Some (file_tags sourceFile);
                         upd_folderId := None |} userId ;;
     match updatedFile with
     | Some u => ret (updatedFiles ++ [u])
     | None => ret updatedFiles
     end)
    (ret updatedFiles).

(** [app.post("/api/files/:id/apply-to-similar", ...)]. *)
Definition applyToSimilar (ident userId : string) : M (Response ApplyReply) :=
  try_catch
    (found <- getFile env ident userId ;;
     match found with
     | None => ret (Status 404)
     | Some sourceFile =>
         allFiles <- getAllFiles env userId ;;
         let similarFiles := similarFilesOf ident sourceFile allFiles in
         updatedFiles <- for_of similarFiles (applyTagsTo userId sourceFile) [] ;;
         ret (Json {| sourceFile := sourceFile;
                      updatedFiles := updatedFiles;
                      count := length updatedFiles;
                      similarFilesFound := length similarFiles |})
     end)
    (ret (Status 500)).

(** One turn of the loop of organize-files. *)
Definition organizeOne (userId : string) (organizedCount : Counters) (file : File)
  : M Counters :=
  (* Skip files already in folders *)
  if truthy (folder_id file) then ret organizedCount
  else
    aiTagging <- generateFileTags env (original_name file) (file_type file) ;;
    match suggestedFolderName aiTagging with
    | None => ret organizedCount
    | Some suggested =>
        if truthy (Some suggested) then
          (* Check if folder exists *)
          allFolders <- getAllFolders env userId ;;
          let existingFolder :=
            find (fun folder =>
                    String.eqb (toLowerCase (name folder)) (toLowerCase suggested))
                 allFolders in
          ' (existingFolder, organizedCount) <-
            match existingFolder with
            | Some d => ret (d, organizedCount)
            | None =>
                (* Create new folder *)
                d <- createFolder env {| ins_name := suggested;
                                         ins_parentId := None;
                                         ins_userId := userId;
                                         ins_isAiGenerated := true |} ;;
                ret (d, {| created := S (created organizedCount);
                           moved := moved organizedCount |})
            end ;;
          (* Move file to folder *)
          _ <- updateFile env (id file)
                 {| upd_tags := Some (tags aiTagging);
                    upd_folderId := Some (folder_ident existingFolder) |} userId ;;
          ret {| created := created organizedCount;
                 moved := S (moved organizedCount) |}
        else ret organizedCount
    end.

(** [app.post("/api/organize-files", ...)]. *)
Definition organizeFiles (userId : string) : M (Response OrganizeReply) :=
  try_catch
    (files <- getAllFiles env userId ;;
     organizedCount <- for_of files (organizeOne userId)
                              {| created := 0; moved := 0 |} ;;
     ret (Json {| success := true;
                  foldersCreated := created organizedCount;
                  filesMoved := moved organizedCount |}))
    (ret (Status 500)).

(** The files the loop of organize-files does not skip. *)
Definition unfoldered (files : list File) : list File :=
  filter (fun file => negb (truthy (folder_id file))) files.

(** The tagging result of the call to [generateFileTags] numbered [n]. *)
Definition taggingAt (n : nat) (file : File) : FileTagging :=
  match gemini env n (original_name file) (file_type file) with
  | Some data => data
  | None => generateFallbackTags (original_name file) (file_type file)
  end.

End WithOracle.

(** The folders [created] are owned by [userId], flagged as AI-generated, have
    pairwise different names under case-insensitive comparison, and none has
    the name, compared case-insensitively, of a folder in [before] that the
    listing of [userId] shows. *)
Definition freshFolders (userId : string) (before created : list Folder) : Prop :=
  Forall (fun d => folder_user_id d = userId /\ is_ai_generated d = true) created
  /\ NoDup (map (fun d => toLowerCase (name d)) created)
  /\ (forall c d, In c created -> In d before ->
                  owned_by userId (folder_user_id d) = true ->
                  toLowerCase (name d) <> toLowerCase (name c)).

End Routes.

(* ------------------------------------------------------------------------- *)
(** ** The fallback as the specification words it: an ordered table of rules  *)
(* ------------------------------------------------------------------------- *)

Module RuleTable.
Import Js Gemini.

(** A rule of the table: when it matches the lowercased name and type, the
    tags it appends, and the folder name it assigns (none for a rule that
    suggests no folder). *)
Record Rule := mkRule {
  matches : string -> string -> bool;
  appends : string -> list string;
  suggests : string -> option string
}.

(** Refinement of a type rule by name substrings: the first case that
    applies gives the extra tags and the folder, [otherwise] is the folder
    when none applies. *)
Fixpoint refined (cases : list (bool * (list string * string))) (otherwise : string)
  : list string * string :=
  match cases with
  | [] => ([], otherwise)
  | (true, r) :: _ => r
  | (false, _) :: rest => refined rest otherwise
  end.

Definition typeRule (guard : string -> bool) (base : list string)
           (cases : string -> list (bool * (list string * string)))
           (otherwise : string) : Rule :=
  {| matches := fun _ lowerType => guard lowerType;
     appends := fun lowerName => base ++ fst (refined (cases lowerName) otherwise);
     suggests := fun lowerName => Some (snd (refined (cases lowerName) otherwise)) |}.

Definition nameRule (guard : string -> bool) (tag : string) (folder : option string)
  : Rule :=
  {| matches := fun lowerName _ => guard lowerName;
     appends := fun _ => [tag];
     suggests := fun _ => folder |}.

(** The rules, in table order. *)
Definition table : list Rule :=
  [ typeRule (fun t => includes t "pdf" || includes t "doc") ["document"]
      (fun n =>
         [ (includes n "resume" || includes n "cv", (["resume"; "personal"], "Resumes"));
           (includes n "assignment" || includes n "homework", (["assignment"; "work"], "Assignments"));
           (includes n "cover" && includes n "letter", (["work"; "application"], "Cover Letters"));
           (includes n "job" || includes n "application", (["work"; "application"], "Job Applications")) ])
      "Documents";
    typeRule (fun t => includes t "image" || includes t "jpg" || includes t "png") ["image"]
      (fun n =>
         [ (includes n "photo" || includes n "pic", (["photo"], "Photos"));
           (includes n "screenshot", (["screenshot"], "Screenshots"));
           (includes n "wallpaper" || includes n "background", (["wallpaper"], "Wallpapers")) ])
      "Images";
    typeRule (fun t => includes t "excel" || includes t "csv" || includes t "spreadsheet")
      ["spreadsheet"; "data"]
      (fun n =>
         [ (includes n "customer" || includes n "client", (["customer"], "Customer Data"));
           (includes n "finance" || includes n "loan" || includes n "payment",
            (["finance"], "Financial Data")) ])
      "Spreadsheets";
    typeRule (fun t => includes t "video" || includes t "mp4") ["video"]
      (fun _ => []) "Videos";
    nameRule (fun n => includes n "report") "report" None;
    nameRule (fun n => includes n "invoice" || includes n "receipt") "finance"
      (Some "Financial Documents");
    nameRule (fun n => includes n "project") "project" (Some "Projects");
    nameRule (fun n => includes n "presentation" || includes n "ppt") "presentation"
      (Some "Presentations") ].

(** The rules of [rules] that match, in table order. *)
Definition matching (rules : list Rule) (lowerName lowerType : string) : list Rule :=
  filter (fun r => matches r lowerName lowerType) rules.

(** The tags of all matching rules, appended in table order. *)
Definition appendedTags (rules : list Rule) (lowerName lowerType : string) : list string :=
  concat (map (fun r => appends r lowerName) (matching rules lowerName lowerType)).

(** The folder names assigned by the matching folder-suggesting rules, in
    table order. *)
Definition folderSuggestions (rules : list Rule) (lowerName lowerType : string)
  : list string :=
  flat_map (fun r => match suggests r lowerName with
                     | Some folder => [folder]
                     | None => []
                     end)
           (matching rules lowerName lowerType).

(** The suggestion of the last matching folder-suggesting rule. *)
Definition lastSuggestion (rules : list Rule) (lowerName lowerType : string)
  : option string :=
  pop (folderSuggestions rules lowerName lowerType).

(** A statement [s] of the fallback appends [ts] to the tags and, when [f] is a
    name, overwrites the suggested folder with it. *)
Definition acts (s : Stmt) (ts : list string) (f : option string) : Prop :=
  forall st, s st = (fst st ++ ts, match f with Some x => Some x | None => snd st end).

End RuleTable.

(* ------------------------------------------------------------------------- *)
(** ** Concrete oracles, rows and stores used in the examples                 *)
(* ------------------------------------------------------------------------- *)

Module Scenario.
Import Js Gemini Storage Routes.

(** The identity the store gives the row inserted by its [n]-th call. *)
Definition folderId (n : nat) : string :=
  String.append "folder-" (NilEmpty.string_of_uint (Nat.to_uint n)).

(** The AI endpoint is down and the store answers every call. *)
Definition aiDown : Oracle :=
  {| gemini := fun _ _ _ => None;
     db_error := fun _ => false;
     fresh_id := folderId;
     now := fun n => Z.of_nat n |}.

(** The AI endpoint is down and the store fails exactly its call number [k]. *)
Definition aiDownDbFailsAt (k : nat) : Oracle :=
  {| gemini := fun _ _ _ => None;
     db_error := fun n => Nat.eqb n k;
     fresh_id := folderId;
     now := fun n => Z.of_nat n |}.

(** A file row of user [alice] that is in no folder. *)
Definition upload (ident fileName fileType : string) (fileTags : list string) : File :=
  {| id := ident;
     original_name := fileName;
     display_name := fileName;
     file_type := fileType;
     file_size := 1024;
     storage_path := String.append "uploads/" ident;
     file_tags := fileTags;
     ai_generated := true;
     user_id := "alice";
     folder_id := None;
     uploaded_at := 0;
     metadata := [] |}.

Definition store (rows : list File) (dirs : list Folder) : World :=
  {| files := rows; folders := dirs; ai_calls := 0; db_calls := 0 |}.

Definition emptyStore : World := store [] [].

(** Two names that end in the extension [v-2], and two that end in [pdf]. *)
Definition draftV2 : File := upload "1" "draft.v-2" "text/plain" [].
Definition finalV2 : File := upload "2" "final.v-2" "application/octet-stream" [].
Definition holidayPdf : File := upload "3" "holiday.pdf" "application/pdf" ["travel"].
Definition taxesPDF : File := upload "4" "taxes.PDF" "image/png" [].

(** The collection of the apply-to-similar scenario of the specification. *)
Definition reports : World :=
  store [ upload "1" "report_q1.pdf" "application/pdf" ["report"; "q1"];
          upload "2" "report_q2.pdf" "application/pdf" ["draft"; "old"];
          upload "3" "photo.jpg" "image/jpeg" ["image"] ]
        [].

(** One unfoldered resume, and the same store with a second one. *)
Definition oneResume : World :=
  store [ upload "1" "resume_john.pdf" "application/pdf" ["old"] ] [].

Definition twoResumes : World :=
  store [ upload "1" "resume_john.pdf" "application/pdf" ["old"];
          upload "2" "resume_mary.pdf" "application/pdf" ["old"] ] [].

(** The AI endpoint answers every request with tags and no folder name. *)
Definition aiNoFolder : Oracle :=
  {| gemini := fun _ _ _ => Some {| tags := ["misc"];
                                    suggestedFolderName := None;
                                    suggestedFileName := None;
                                    confidence := (9 # 10)%Q |};
     db_error := fun _ => false;
     fresh_id := folderId;
     now := fun n => Z.of_nat n |}.

(** The AI endpoint is down for the first request and afterwards answers
    with tags and no folder name. *)
Definition aiDownThenNoFolder : Oracle :=
  {| gemini := fun n _ _ => if Nat.eqb n 0 then None else gemini aiNoFolder n "" "";
     db_error := fun _ => false;
     fresh_id := folderId;
     now := fun n => Z.of_nat n |}.

End Scenario.

(* ------------------------------------------------------------------------- *)
(** ** storage.ts: the remaining operations on the file table                 *)
(* ------------------------------------------------------------------------- *)

Module StorageOps.
Import Js Gemini Storage.

(** [InsertFile]: a file row without [id] and [uploadedAt]; the columns that
    have a default may be left out. *)
Record InsertFile := mkInsertFile {
  ins_originalName : string;
  ins_displayName : string;
  ins_fileType : string;
  ins_fileSize : Z;
  ins_storagePath : string;
  ins_tags : option (list string);
  ins_aiGenerated : option bool;
  ins_fileUserId : string;
  ins_folderId : option string;
  ins_metadata : option (list (string * string))
}.

Section WithOracle.
Variable env : Oracle.

(** [storage.createFile(insertFile)]: throws on an error. *)
Definition createFile (ins : InsertFile) : M File :=
  fun w =>
    let '(n, w1) := db_call w in
    if db_error env n then (Thrown, w1)
    else
      let row := {| id := fresh_id env n;
                    original_name := ins_originalName ins;
                    display_name := ins_displayName ins;
                    file_type := ins_fileType ins;
                    file_size := ins_fileSize ins;
                    storage_path := ins_storagePath ins;
                    file_tags := match ins_tags ins with Some t => t | None => [] end;
                    ai_generated := match ins_aiGenerated ins with Some b => b | None => false end;
                    user_id := ins_fileUserId ins;
                    folder_id := if truthy (ins_folderId ins) then ins_folderId ins else None;
                    uploaded_at := now env n;
                    metadata := match ins_metadata ins with Some m => m | None => [] end |} in
      (Returned row,
       {| files := row :: files w1; folders := folders w1;
          ai_calls := ai_calls w1; db_calls := db_calls w1 |}).

(** [storage.deleteFile(id, userId)]: [!error], whether or not a row was
    selected. *)
Definition deleteFile (ident userId : string) : M bool :=
  fun w =>
    let '(n, w1) := db_call w in
    if db_error env n then (Returned false, w1)
    else
      (Returned true,
       {| files := filter (fun f => negb (selects ident userId f)) (files w1);
          folders := folders w1;
          ai_calls := ai_calls w1; db_calls := db_calls w1 |}).

(** [query.eq('folder_id', folderId)] when [folderId] is truthy,
    [query.is('folder_id', null)] otherwise. *)
Definition in_folder (folderId : option string) (f : File) : bool :=
  if truthy folderId then opt_eqb (folder_id f) folderId
  else match folder_id f with
       | None => true
       | Some _ => false
       end.

(** [storage.getFilesByFolderId(folderId, userId)]: throws on an error. *)
Definition getFilesByFolderId (folderId : option string) (userId : string)
  : M (list File) :=
  fun w =>
    let '(n, w1) := db_call w in
    if db_error env n then (Thrown, w1)
    else (Returned (filter (fun f => in_folder folderId f && owned_by userId (user_id f))
                           (files w1)), w1).

End WithOracle.

End StorageOps.

(* ------------------------------------------------------------------------- *)
(** ** registerRoutes: listing, searching, tagging and folder handlers        *)
(* ------------------------------------------------------------------------- *)

Module Handlers.
Import Js Gemini Storage StorageOps Routes.
Local Open Scope io_scope.

(** A value of [req.query]: absent, one string, or something else (a repeated
    parameter arrives as an array). *)
Inductive QueryParam : Type :=
| Absent
| Text (s : string)
| NotText.

(** A field of a JSON body as the insert schema sees it. *)
Inductive Field (A : Type) : Type :=
| Missing
| Given (a : A)
| IllTyped.
Arguments Missing {A}.
Arguments Given {A} a.
Arguments IllTyped {A}.

(** The body of [POST /api/folders]. *)
Record FolderBody := mkFolderBody {
  body_name : Field string;
  body_parentId : Field string;
  body_userId : Field string;
  body_isAiGenerated : Field bool
}.

(** The reply of [GET /api/storage-usage]. *)
Record Usage := mkUsage {
  used : Z;
  total : Z
}.

(** [x || 0] on a number. *)
Definition or_zero (x : Z) : Z := if Z.eqb x 0 then 0%Z else x.

(** [q && typeof q === 'string']: the text of a parameter that filters. *)
Definition filtering (p : QueryParam) : option string :=
  match p with
  | Text s => if truthy (Some s) then Some s else None
  | _ => None
  end.

(** The three filters of the search handler, each on one file. *)
Definition matchesQuery (q : string) (file : File) : bool :=
  let query := toLowerCase q in
  includes (toLowerCase (original_name file)) query ||
  includes (toLowerCase (display_name file)) query ||
  existsb (fun t => includes (toLowerCase t) query) (file_tags file).

Definition matchesTag (tag : string) (file : File) : bool :=
  existsb (fun t => String.eqb (toLowerCase t) (toLowerCase tag)) (file_tags file).

Definition matchesType (type : string) (file : File) : bool :=
  includes (toLowerCase (file_type file)) (toLowerCase type).

(** [if (p && typeof p === 'string') files = files.filter(...)]. *)
Definition filterWhen (p : QueryParam) (test : string -> File -> bool)
           (files : list File) : list File :=
  match filtering p with
  | Some s => filter (test s) files
  | None => files
  end.

(** [insertFolderSchema.parse({ ...req.body, userId })]: the name is required,
    the other fields are optional, a field of the wrong type is refused; the
    [userId] of the body is overwritten before the schema sees it. *)
Definition parseFolder (body : FolderBody) (userId : string) : option InsertFolder :=
  match body_name body, body_parentId body, body_isAiGenerated body with
  | Given n, IllTyped, _ => None
  | Given n, _, IllTyped => None
  | Given n, parent, flag =>
      Some {| ins_name := n;
              ins_parentId := match parent with Given p => Some p | _ => None end;
              ins_userId := userId;
              ins_isAiGenerated := match flag with Given b => b | _ => false end |}
  | _, _, _ => None
  end.

(** Whether the filter of parameter [p] keeps [file]: a parameter that does
    not filter keeps every file. *)
Definition keeps (p : QueryParam) (test : string -> File -> bool) (file : File) : bool :=
  match filtering p with
  | Some s => test s file
  | None => true
  end.

Section WithOracle.
Variable env : Oracle.


(** [app.get("/api/files/folder/:folderId?", ...)]. *)
Definition listFolderFiles (folderId : option string) (userId : string)
  : M (Response (list File)) :=
  try_catch
    (files <- getFilesByFolderId env
                (if opt_eqb folderId (Some "root") then None else folderId) userId ;;
     ret (Json files))
    (ret (Status 500)).

(** [app.patch("/api/files/:id/tags", ...)]; [tags] is [None] when the body
    holds no array. *)
Definition updateTags (ident : string) (tags : option (list string)) (userId : string)
  : M (Response File) :=
  try_catch
    (match tags with
     | None => ret (Status 400)
     | Some tags =>
         updatedFile <- updateFile env ident
                          {| upd_tags := Some tags; upd_folderId := None |} userId ;;
         match updatedFile with
         | None => ret (Status 404)
         | Some u => ret (Json u)
         end
     end)
    (ret (Status 500)).

(** [app.get("/api/folders", ...)]. *)
Definition listFolders (userId : string) : M (Response (list Folder)) :=
  try_catch
    (folders <- getAllFolders env userId ;;
     ret (Json folders))
    (ret (Status 500)).

(** [app.post("/api/folders", ...)]: a body the schema refuses is a 400. *)
Definition postFolder (body : FolderBody) (userId : string) : M (Response Folder) :=
  try_catch
    (match parseFolder body userId with
     | None => ret (Status 400)
     | Some folderData =>
         folder <- createFolder env folderData ;;
         ret (Json folder)
     end)
    (ret (Status 500)).

(** [app.get("/api/storage-usage", ...)]. *)
Definition storageUsage (userId : string) : M (Response Usage) :=
  try_catch
    (files <- getAllFiles env userId ;;
     let totalSize := fold_left (fun acc file => (acc + or_zero (file_size file))%Z) files 0%Z in
     let storageLimit := (1 * 1024 * 1024 * 1024)%Z in
     ret (Json {| used := totalSize; total := storageLimit |}))
    (ret (Status 500)).

(** [app.get("/api/search", ...)]. *)
Definition search (q tag type : QueryParam) (userId : string)
  : M (Response (list File)) :=
  try_catch
    (files <- getAllFiles env userId ;;
     (* Filter by search query *)
     let files := filterWhen q matchesQuery files in
     (* Filter by tag *)
     let files := filterWhen tag matchesTag files in
     (* Filter by file type *)
     let files := filterWhen type matchesType files in
     ret (Json files))
    (ret (Status 500)).

End WithOracle.

End Handlers.

(* ------------------------------------------------------------------------- *)
(** ** gemini.ts: tagging a batch                                             *)
(* ------------------------------------------------------------------------- *)

Module Bulk.
Import Js Gemini Storage.
Local Open Scope io_scope.

(** [Promise.allSettled(promises)]: every promise is run; a rejected one is
    recorded as [None] and the others still settle. *)
Fixpoint allSettled {A} (promises : list (M A)) : M (list (option A)) :=
  match promises with
  | [] => ret []
  | p :: rest =>
      fun w =>
        match p w with
        | (Returned a, w1) => bind (allSettled rest) (fun rs => ret (Some a :: rs)) w1
        | (Thrown, w1) => bind (allSettled rest) (fun rs => ret (None :: rs)) w1
        end
  end.

(** The placeholder of a rejected tagging. *)
Definition rejectedTagging : FileTagging :=
  {| tags := ["uncategorized"];
     suggestedFolderName := None;
     suggestedFileName := None;
     confidence := (3 # 10)%Q |}.

Section WithOracle.
Variable env : Oracle.

(** [generateBulkTags(files)], [files] being (name, type) pairs. *)
Definition generateBulkTags (files : list (string * string)) : M (list FileTagging) :=
  results <- allSettled (map (fun file => generateFileTags env (fst file) (snd file)) files) ;;
  ret (map (fun result => match result with
                          | Some value => value
                          | None => rejectedTagging
                          end) results).

End WithOracle.

End Bulk.

(* ------------------------------------------------------------------------- *)
(** ** middleware/auth.ts: the bearer token                                   *)
(* ------------------------------------------------------------------------- *)

Module Auth.
Import Js.

(** What [supabase.auth.getUser(token)] does: it names a user, it reports an
    error or no user, or it throws. *)
Inductive Verdict : Type :=
| UserIs (userId : string)
| Refused
| Crashed.

(** What the middleware does with a request: it answers itself, or it calls
    [next()] with [req.userId] and [req.accessToken] set. *)
Inductive Passage : Type :=
| Answer (code : nat)
| Next (userId : string) (accessToken : option string).

(** [authHeader.split(' ')[1]]. *)
Definition bearerToken (authHeader : string) : option string :=
  nth_error (split " " authHeader) 1.

(** [authenticateUser(req, res, next)], [getUser] being the identity provider
    and [authorization] the header of the request. *)
Definition authenticateUser (getUser : option string -> Verdict)
           (authorization : option string) : Passage :=
  match authorization with
  | None => Answer 401
  | Some authHeader =>
      if negb (truthy (Some authHeader)) || negb (String.prefix "Bearer " authHeader)
      then Answer 401
      else
        let token := bearerToken authHeader in
        match getUser token with
        | Crashed => Answer 500
        | Refused => Answer 401
        | UserIs userId => Next userId token
        end
  end.

End Auth.

(* ------------------------------------------------------------------------- *)
(** ** services/supabase.ts and the handlers that use the object store        *)
(* ------------------------------------------------------------------------- *)

Module Cloud.
Import Js Gemini Storage StorageOps Routes.

(** The hosted platform: the relational store of [Storage], the paths of the
    objects in the bucket, and the number of calls made to the bucket. *)
Record Platform := mkPlatform {
  store : World;
  bucket : list string;
  bucket_calls : nat
}.

(** What the bucket answers.  [bucket_error n] says that its [n]-th call comes
    back with an error, [randomUUID n] is the identifier drawn before that
    call, [publicUrl path] the public address of an object; [jsonNumber] is
    how a number is written in the metadata column. *)
Record BucketOracle := mkBucketOracle {
  bucket_error : nat -> bool;
  randomUUID : nat -> string;
  publicUrl : string -> string;
  jsonNumber : Q -> string
}.

Definition C (A : Type) : Type := Platform -> Outcome A * Platform.

Definition retC {A} (a : A) : C A := fun c => (Returned a, c).

Definition bindC {A B} (m : C A) (k : A -> C B) : C B :=
  fun c =>
    match m c with
    | (Returned a, c') => k a c'
    | (Thrown, c') => (Thrown, c')
    end.

(** [try { m } catch (error) { h }]. *)
Definition tryC {A} (m : C A) (h : C A) : C A :=
  fun c =>
    match m c with
    | (Returned a, c') => (Returned a, c')
    | (Thrown, c') => h c'
    end.

(** A call to the relational store, or to the tagging service. *)
Definition lift {A} (m : M A) : C A :=
  fun c =>
    let '(out, w) := m (store c) in
    (out, {| store := w; bucket := bucket c; bucket_calls := bucket_calls c |}).

Declare Scope cloud_scope.
Delimit Scope cloud_scope with cloud.
Notation "x <- m ;; k" := (bindC m (fun x => k))
  (at level 61, m at next level, right associativity) : cloud_scope.
Notation "' pat <- m ;; k" := (bindC m (fun x => match x with pat => k end))
  (at level 61, pat pattern, m at next level, right associativity) : cloud_scope.
Local Open Scope cloud_scope.

(** [for (const x of l) { s = body(s, x) }]. *)
Fixpoint for_ofC {A S} (l : list A) (body : S -> A -> C S) (s : S) : C S :=
  match l with
  | [] => retC s
  | x :: r => bindC (body s x) (for_ofC r body)
  end.

(** A file as multer hands it over: [originalname], [mimetype], [size]. *)
Record Upload := mkUpload {
  originalname : string;
  mimetype : string;
  size : Z
}.

(** [`uploads/${fileId}.${extension}`] with
    [extension = fileName.split('.').pop()]. *)
Definition uploadPath (fileId fileName : string) : string :=
  let extension := match pop (split "." fileName) with
                   | Some e => e
                   | None => "undefined"
                   end in
  String.append "uploads/" (String.append fileId (String.append "." extension)).

Section WithOracle.
Variable env : Oracle.
Variable cloud : BucketOracle.

(** [supabaseStorage.uploadFile(file, fileName, mimeType)]: [upsert: false]
    refuses a path that is taken; every error is thrown again. *)
Definition uploadFile (fileName mimeType : string) : C (string * string) :=
  fun c =>
    let n := bucket_calls c in
    let filePath := uploadPath (randomUUID cloud n) fileName in
    if bucket_error cloud n || existsb (String.eqb filePath) (bucket c)
    then (Thrown, {| store := store c; bucket := bucket c; bucket_calls := S n |})
    else (Returned (filePath, publicUrl cloud filePath),
          {| store := store c; bucket := filePath :: bucket c; bucket_calls := S n |}).

(** [supabaseStorage.deleteFile(path)]: [false] on an error, never a throw. *)
Definition removeObject (path : string) : C bool :=
  fun c =>
    let n := bucket_calls c in
    if bucket_error cloud n
    then (Returned false, {| store := store c; bucket := bucket c; bucket_calls := S n |})
    else (Returned true,
          {| store := store c;
             bucket := filter (fun p => negb (String.eqb p path)) (bucket c);
             bucket_calls := S n |}).

(** The text both upload handlers run for one file: object upload, tagging,
    folder lookup or creation, record creation. *)
Definition storeUpload (folderId : option string) (userId : string) (file : Upload)
  : C File :=
  (* Upload to Supabase Storage *)
  ' (storagePath, url) <- uploadFile (originalname file) (mimetype file) ;;
  (* Generate AI tags *)
  aiTagging <- lift (generateFileTags env (originalname file) (mimetype file)) ;;
  (* Auto-create folder if AI suggests one and no specific folder is provided *)
  targetFolderId <-
    match suggestedFolderName aiTagging with
    | Some suggested =>
        if negb (truthy folderId) && truthy (Some suggested) then
          allFolders <- lift (getAllFolders env userId) ;;
          let existingFolder :=
            find (fun folder =>
                    String.eqb (toLowerCase (name folder)) (toLowerCase suggested))
                 allFolders in
          existingFolder <-
            match existingFolder with
            | Some d => retC d
            | None => lift (createFolder env {| ins_name := suggested;
                                                ins_parentId := None;
                                                ins_userId := userId;
                                                ins_isAiGenerated := true |})
            end ;;
          retC (Some (folder_ident existingFolder))
        else retC folderId
    | None => retC folderId
    end ;;
  (* Create file record *)
  let fileData :=
    {| ins_originalName := originalname file;
       ins_displayName := if truthy (suggestedFileName aiTagging)
                          then match suggestedFileName aiTagging with
                               | Some n => n
                               | None => originalname file
                               end
                          else originalname file;
       ins_fileType := mimetype file;
       ins_fileSize := size file;
       ins_storagePath := storagePath;
       ins_tags := Some (tags aiTagging);
       ins_aiGenerated := Some true;
       ins_fileUserId := userId;
       ins_folderId := targetFolderId;
       ins_metadata :=
         Some ([("url", url); ("confidence", jsonNumber cloud (confidence aiTagging))]
               ++ match suggestedFolderName aiTagging with
                  | Some n => [("suggestedFolderName", n)]
                  | None => []
                  end) |} in
  lift (createFile env fileData).

(** The handler of [app.post("/api/files/upload", ...)], entered with the file
    [upload.single('file')] accepted. *)
Definition upload (file : option Upload) (folderId : option string) (userId : string)
  : C (Response File) :=
  tryC
    (match file with
     | None => retC (Status 400)
     | Some file =>
         createdFile <- storeUpload folderId userId file ;;
         retC (Json createdFile)
     end)
    (retC (Status 500)).

(** [limits: { fileSize: 50 * 1024 * 1024 }] of the multer instance. *)
Definition fileSize : Z := (50 * 1024 * 1024)%Z.

(** [upload.array('files', maxCount)]: the middleware hands the files of the
    request over to the handler when there are at most [maxCount] of them and
    none reaches the size limit; otherwise it calls [next(err)] and the handler
    is not entered. *)
Definition upload_array (maxCount : nat) (sent : list Upload) : bool :=
  (length sent <=? maxCount) && forallb (fun file => (size file <? fileSize)%Z) sent.

(** [app.post("/api/files/upload-multiple", authenticateUser,
    upload.array('files', 10), ...)]; [files] is [None] when the request
    carries no array of files.  An error of the middleware is answered by the
    error handler of express, with status 500. *)
Definition uploadMultiple (files : option (list Upload)) (folderId : option string)
           (userId : string) : C (Response (list File)) :=
  if match files with
     | Some sent => upload_array 10 sent
     | None => true
     end
  then
    tryC
      (match files with
       | None => retC (Status 400)
       | Some files =>
           uploadedFiles <-
             for_ofC files
               (fun uploadedFiles file =>
                  tryC (createdFile <- storeUpload folderId userId file ;;
                        retC (uploadedFiles ++ [createdFile]))
                       (retC uploadedFiles))
               [] ;;
           retC (Json uploadedFiles)
       end)
      (retC (Status 500))
  else retC (Status 500).

(** [app.delete("/api/files/:id", ...)]; the reply is [{ success: true }]. *)
Definition deleteRoute (ident userId : string) : C (Response bool) :=
  tryC
    (file <- lift (getFile env ident userId) ;;
     match file with
     | None => retC (Status 404)
     | Some file =>
         (* Delete from Supabase Storage *)
         _ <- removeObject (storage_path file) ;;
         (* Delete from database *)
         _ <- lift (deleteFile env ident userId) ;;
         retC (Json true)
     end)
    (retC (Status 500)).

End WithOracle.

End Cloud.

(* ------------------------------------------------------------------------- *)
(** ** More concrete stores and requests for the examples                     *)
(* ------------------------------------------------------------------------- *)

Module Cases.
Import Js Gemini Storage StorageOps Routes Handlers Cloud.

(** A file row of user [bob]. *)
Definition bobsFile (ident fileName fileType : string) (fileTags : list string) : File :=
  {| id := ident;
     original_name := fileName;
     display_name := fileName;
     file_type := fileType;
     file_size := 2048;
     storage_path := String.append "uploads/" ident;
     file_tags := fileTags;
     ai_generated := true;
     user_id := "bob";
     folder_id := None;
     uploaded_at := 0;
     metadata := [] |}.

(** A store shared by [alice] and [bob]. *)
Definition shared : World :=
  Scenario.store
    [ Scenario.upload "1" "Invoice_March.pdf" "application/pdf" ["finance"; "2024"];
      bobsFile "2" "notes.txt" "text/plain" ["todo"];
      Scenario.upload "3" "holiday.JPG" "image/jpeg" ["photo"] ]
    [].

(** The record of a new text file of [alice]. *)
Definition newNote : InsertFile :=
  {| ins_originalName := "note.txt";
     ins_displayName := "note.txt";
     ins_fileType := "text/plain";
     ins_fileSize := 12;
     ins_storagePath := "uploads/abc.txt";
     ins_tags := None;
     ins_aiGenerated := None;
     ins_fileUserId := "alice";
     ins_folderId := Some "";
     ins_metadata := None |}.

(** A bucket that answers every call. *)
Definition bucketUp : BucketOracle :=
  {| bucket_error := fun _ => false;
     randomUUID := fun n => String.append "uuid-" (NilEmpty.string_of_uint (Nat.to_uint n));
     publicUrl := fun path => String.append "https://bucket/" path;
     jsonNumber := fun _ => "0.7" |}.

(** The platform holding a relational store and an empty bucket. *)
Definition platform (w : World) : Platform :=
  {| store := w; bucket := []; bucket_calls := 0 |}.

Definition resumePdf : Upload :=
  {| originalname := "resume_john.pdf"; mimetype := "application/pdf"; size := 4096 |}.

Definition resumeDoc : Upload :=
  {| originalname := "Resume_Mary.doc"; mimetype := "application/msword"; size := 1024 |}.

(** A body that asks for a folder of another user. *)
Definition reportsBody : FolderBody :=
  {| body_name := Given "Reports";
     body_parentId := Missing;
     body_userId := Given "bob";
     body_isAiGenerated := Missing |}.

(** An identity provider that knows one token. *)
Definition provider (token : option string) : Auth.Verdict :=
  if opt_eqb token (Some "tok123") then Auth.UserIs "alice" else Auth.Refused.

(** A platform whose bucket holds the object of the resume and one more. *)
Definition withObjects : Platform :=
  {| store := Scenario.oneResume;
     bucket := ["uploads/1"; "uploads/other.png"];
     bucket_calls := 0 |}.

End Cases.

Import Js Gemini Storage Routes.

(* ------------------------------------------------------------------------- *)
(** * Properties of the fallback tagger                                       *)
(* ------------------------------------------------------------------------- *)


Section Fallback.
Import RuleTable.

Lemma pop_app (l1 l2 : list string) :
  pop (l1 ++ l2) = match pop l2 with Some x => Some x | None => pop l1 end.
Proof.
  induction l1 as [|a l1 IH]; cbn [app].
  - destruct (pop l2); reflexivity.
  - destruct l1 as [|b l1].
    + cbn [app]. destruct l2 as [|c l2]; [reflexivity|].
      change (pop (a :: c :: l2)) with (pop (c :: l2)).
      destruct (pop (c :: l2)) eqn:E; [reflexivity|].
      exfalso. clear -E. revert c E.
      induction l2 as [|d l2 IH2]; intros c E; [discriminate|].
      exact (IH2 d E).
    + change (pop (a :: (b :: l1) ++ l2)) with (pop ((b :: l1) ++ l2)).
      rewrite IH. reflexivity.
Qed.

Lemma appendedTags_cons (r : Rule) (rs : list Rule) (n t : string) :
  appendedTags (r :: rs) n t = appendedTags [r] n t ++ appendedTags rs n t.
Proof.
  unfold appendedTags, matching. cbn [filter].
  destruct (matches r n t); cbn [map concat app].
  - rewrite app_nil_r. reflexivity.
  - reflexivity.
Qed.

Lemma lastSuggestion_cons (r : Rule) (rs : list Rule) (n t : string) :
  lastSuggestion (r :: rs) n t
  = match lastSuggestion rs n t with
    | Some x => Some x
    | None => lastSuggestion [r] n t
    end.
Proof.
  unfold lastSuggestion, folderSuggestions, matching. cbn [filter].
  destruct (matches r n t); cbn [flat_map].
  - rewrite pop_app, app_nil_r. reflexivity.
  - cbn [pop]. destruct (pop _); reflexivity.
Qed.

(** A block followed by the rest of the body acts as its rule followed by the
    rest of the table. *)
Lemma acts_cons (b bs : Stmt) (r : Rule) (rs : list Rule) (n t : string) :
  acts b (appendedTags [r] n t) (lastSuggestion [r] n t) ->
  acts bs (appendedTags rs n t) (lastSuggestion rs n t) ->
  acts (seq b bs) (appendedTags (r :: rs) n t) (lastSuggestion (r :: rs) n t).
Proof.
  intros Hb Hbs st. unfold seq.
  rewrite (appendedTags_cons r rs), (lastSuggestion_cons r rs), Hbs.
  pose proof (Hb st) as E. rewrite E.
  cbn [fst snd]. rewrite app_assoc.
  destruct (lastSuggestion rs n t); reflexivity.
Qed.

Local Ltac block_acts :=
  let st := fresh "st" in
  intros st; destruct st;
  unfold appendedTags, lastSuggestion, folderSuggestions, matching, typeRule, nameRule,
    seq, ite, push, setFolder, skip;
  cbn [filter matches fst snd];
  repeat match goal with
         | |- context [if ?c then _ else _] =>
             destruct c;
             cbn [fst snd map concat flat_map appends suggests refined app pop filter matches]
         end;
  rewrite <- ?app_assoc, ?app_nil_r; reflexivity.

Lemma fallbackBody_acts (lowerName lowerType : string) :
  acts (fallbackBody lowerName lowerType)
       (appendedTags table lowerName lowerType)
       (lastSuggestion table lowerName lowerType).
Proof.
  unfold fallbackBody, table.
  repeat (apply acts_cons; [block_acts|]).
  block_acts.
Qed.

(** The statement-by-statement body computes what the rule table says. *)
Lemma fallbackBody_table (lowerName lowerType : string) :
  fallbackBody lowerName lowerType ([], None)
  = (appendedTags table lowerName lowerType, lastSuggestion table lowerName lowerType).
Proof.
  rewrite (fallbackBody_acts lowerName lowerType ([], None)). cbn [fst snd app].
  destruct (lastSuggestion table lowerName lowerType); reflexivity.
Qed.

(** C6. When several folder-suggesting rules match the same (fileName,
    fileType), the fallback returns the folder name of the last matching rule
    in table order, and its tag list is the tags of all matching rules
    appended in table order (["uncategorized"] when none matched). *)
Theorem fallback_last_matching_rule_wins (fileName fileType : string) :
  let lowerName := toLowerCase fileName in
  let lowerType := toLowerCase fileType in
  suggestedFolderName (generateFallbackTags fileName fileType)
  = lastSuggestion table lowerName lowerType
  /\ tags (generateFallbackTags fileName fileType)
     = match appendedTags table lowerName lowerType with
       | [] => ["uncategorized"]
       | ts => ts
       end.
Proof.
  intros lowerName lowerType. unfold generateFallbackTags.
  fold lowerName lowerType. rewrite fallbackBody_table. cbn [fst snd tags suggestedFolderName].
  split; [reflexivity|].
  destruct (appendedTags table lowerName lowerType); reflexivity.
Qed.

(** Three folder-suggesting rules match ["project_invoice.pdf"]: the last one
    in table order gives the folder. *)
Example fallback_three_suggestions :
  folderSuggestions table "project_invoice.pdf" "application/pdf"
  = ["Documents"; "Financial Documents"; "Projects"]
  /\ generateFallbackTags "project_invoice.pdf" "application/pdf"
     = {| tags := ["document"; "finance"; "project"];
          suggestedFolderName := Some "Projects";
          suggestedFileName := None;
          confidence := (7 # 10)%Q |}.
Proof. split; vm_compute; reflexivity. Qed.

(** C8. When the AI endpoint fails on ["resume_john.pdf"] of type
    ["application/pdf"], the fallback answers: its tags include ["document"],
    ["resume"] and ["personal"], and the suggested folder is ["Resumes"]. *)
Theorem fallback_resume_john (env : Oracle) (w : World) :
  gemini env (ai_calls w) "resume_john.pdf" "application/pdf" = None ->
  exists r,
    fst (generateFileTags env "resume_john.pdf" "application/pdf" w) = Returned r
    /\ r = generateFallbackTags "resume_john.pdf" "application/pdf"
    /\ In "document" (tags r) /\ In "resume" (tags r) /\ In "personal" (tags r)
    /\ suggestedFolderName r = Some "Resumes".
Proof.
  intros Hdown. unfold generateFileTags. rewrite Hdown. cbn [fst].
  eexists. split; [reflexivity|]. split; [reflexivity|].
  vm_compute. intuition.
Qed.

Lemma fallback_resume_john_witness :
  exists r,
    fst (generateFileTags Scenario.aiDown "resume_john.pdf" "application/pdf"
           Scenario.emptyStore) = Returned r
    /\ r = generateFallbackTags "resume_john.pdf" "application/pdf"
    /\ In "document" (tags r) /\ In "resume" (tags r) /\ In "personal" (tags r)
    /\ suggestedFolderName r = Some "Resumes".
Proof.
  apply (fallback_resume_john Scenario.aiDown Scenario.emptyStore). reflexivity.
Defined.

(** C9. The fallback is deterministic: whatever the oracle and the state of
    the world, two calls of [generateFileTags] on the same (fileName, fileType)
    whose request to the AI endpoint fails return the same tag list, the same
    suggested folder name (or none in both) and the same confidence, 0.7. *)
Theorem fallback_deterministic
        (fileName fileType : string) (env1 env2 : Oracle) (w1 w2 : World) :
  gemini env1 (ai_calls w1) fileName fileType = None ->
  gemini env2 (ai_calls w2) fileName fileType = None ->
  exists r1 r2,
    fst (generateFileTags env1 fileName fileType w1) = Returned r1
    /\ fst (generateFileTags env2 fileName fileType w2) = Returned r2
    /\ tags r1 = tags r2
    /\ suggestedFolderName r1 = suggestedFolderName r2
    /\ confidence r1 = confidence r2
    /\ confidence r1 = (7 # 10)%Q.
Proof.
  intros H1 H2. unfold generateFileTags. rewrite H1, H2. cbn [fst].
  exists (generateFallbackTags fileName fileType), (generateFallbackTags fileName fileType).
  repeat split; reflexivity.
Qed.

Lemma fallback_deterministic_witness :
  exists r1 r2,
    fst (generateFileTags Scenario.aiDown "cv.doc" "application/msword"
           Scenario.emptyStore) = Returned r1
    /\ fst (generateFileTags (Scenario.aiDownDbFailsAt 0) "cv.doc" "application/msword"
              (Scenario.store [Scenario.upload "1" "a.png" "image/png" []] [])) = Returned r2
    /\ tags r1 = tags r2
    /\ suggestedFolderName r1 = suggestedFolderName r2
    /\ confidence r1 = confidence r2
    /\ confidence r1 = (7 # 10)%Q.
Proof.
  apply (fallback_deterministic "cv.doc" "application/msword"
           Scenario.aiDown (Scenario.aiDownDbFailsAt 0)
           Scenario.emptyStore
           (Scenario.store [Scenario.upload "1" "a.png" "image/png" []] []));
    reflexivity.
Defined.

(** C10. Some input makes the fallback return the same tag twice: a file whose
    type contains ["csv"] and whose name contains ["loan"] and ["invoice"] gets
    ["finance"] from the spreadsheet refinement and again from the
    invoice/receipt rule, so the tags are a list with duplicates, not a set. *)
Theorem fallback_tags_can_repeat :
  exists fileName fileType,
    includes (toLowerCase fileType) "csv" = true
    /\ includes (toLowerCase fileName) "loan" = true
    /\ includes (toLowerCase fileName) "invoice" = true
    /\ tags (generateFallbackTags fileName fileType)
       = ["spreadsheet"; "data"; "finance"; "finance"]
    /\ count_occ string_dec (tags (generateFallbackTags fileName fileType)) "finance" = 2%nat
    /\ ~ NoDup (tags (generateFallbackTags fileName fileType)).
Proof.
  exists "loan_invoice.csv", "text/csv".
  repeat (split; [vm_compute; reflexivity|]).
  intros Hnd.
  pose proof (proj1 (NoDup_count_occ string_dec _) Hnd "finance") as Hle.
  vm_compute in Hle. lia.
Qed.

(** Inside a type rule the name refinements are an else-if chain: the first
    one that applies is taken, and the rule still suggests one folder. *)
Example fallback_refinement_first_case :
  folderSuggestions table "resume_homework.pdf" "application/pdf" = ["Resumes"]
  /\ tags (generateFallbackTags "resume_homework.pdf" "application/pdf")
     = ["document"; "resume"; "personal"].
Proof. split; vm_compute; reflexivity. Qed.

Lemma appendedTags_app (l1 l2 : list Rule) (n t : string) :
  appendedTags (l1 ++ l2) n t = appendedTags l1 n t ++ appendedTags l2 n t.
Proof.
  unfold appendedTags, matching. rewrite filter_app, map_app, concat_app. reflexivity.
Qed.

(** The whole class behind C10: a type with ["csv"] and a name with ["loan"]
    and ["invoice"], but neither ["customer"] nor ["client"] (which would take
    the customer refinement), gets ["finance"] at least twice. *)
Lemma fallback_finance_twice (fileName fileType : string) :
  includes (toLowerCase fileType) "csv" = true ->
  includes (toLowerCase fileName) "loan" = true ->
  includes (toLowerCase fileName) "invoice" = true ->
  includes (toLowerCase fileName) "customer" = false ->
  includes (toLowerCase fileName) "client" = false ->
  2 <= count_occ string_dec (tags (generateFallbackTags fileName fileType)) "finance".
Proof.
  intros Hcsv Hloan Hinv Hcust Hcli.
  unfold generateFallbackTags. rewrite fallbackBody_table. cbn [fst tags].
  set (n := toLowerCase fileName) in *. set (t := toLowerCase fileType) in *.
  assert (Hc : 2 <= count_occ string_dec (appendedTags table n t) "finance").
  { pose (sheet := skipn 2 (firstn 3 table)). pose (invoice := skipn 5 (firstn 6 table)).
    change table
      with (firstn 2 table ++ sheet ++ skipn 3 (firstn 5 table) ++ invoice ++ skipn 6 table).
    rewrite !appendedTags_app, !count_occ_app.
    assert (H3 : appendedTags sheet n t = ["spreadsheet"; "data"; "finance"]).
    { unfold appendedTags, matching, sheet, table, typeRule.
      cbn [firstn skipn filter matches].
      rewrite Hcsv, orb_true_r. cbn [orb map concat appends app].
      rewrite Hcust, Hcli, Hloan, orb_true_r. reflexivity. }
    assert (H6 : appendedTags invoice n t = ["finance"]).
    { unfold appendedTags, matching, invoice, table, nameRule.
      cbn [firstn skipn filter matches].
      rewrite Hinv. reflexivity. }
    rewrite H3, H6.
    change (count_occ string_dec ["spreadsheet"; "data"; "finance"] "finance") with 1.
    change (count_occ string_dec ["finance"] "finance") with 1.
    lia. }
  destruct (appendedTags table n t) as [|x l]; [cbn in Hc; lia|exact Hc].
Qed.

End Fallback.

(* ------------------------------------------------------------------------- *)
(** * Properties of the similar-file matcher                                  *)
(* ------------------------------------------------------------------------- *)

Section Matcher.

Lemma opt_eqb_sym (a b : option string) : opt_eqb a b = opt_eqb b a.
Proof.
  destruct a, b; cbn; try reflexivity. apply String.eqb_sym.
Qed.

Lemma filter_nonempty_existsb {A} (p : A -> bool) (l : list A) :
  (0 <? length (filter p l)) = existsb p l.
Proof.
  induction l as [|x l IH]; cbn; [reflexivity|].
  destruct (p x); cbn; [reflexivity|exact IH].
Qed.

Lemma existsb_swap {A B} (r : A -> B -> bool) (la : list A) (lb : list B) :
  existsb (fun x => existsb (fun y => r x y) lb) la
  = existsb (fun y => existsb (fun x => r x y) la) lb.
Proof.
  apply eq_iff_eq_true. rewrite !existsb_exists. split.
  - intros (x & Hx & H). apply existsb_exists in H. destruct H as (y & Hy & H).
    exists y. split; [exact Hy|]. apply existsb_exists. exists x. split; assumption.
  - intros (y & Hy & H). apply existsb_exists in H. destruct H as (x & Hx & H).
    exists x. split; [exact Hx|]. apply existsb_exists. exists y. split; assumption.
Qed.

Lemma existsb_pointwise {A} (p q : A -> bool) (l : list A) :
  (forall x, p x = q x) -> existsb p l = existsb q l.
Proof.
  intros H. induction l as [|x l IH]; cbn; [reflexivity|].
  rewrite H, IH. reflexivity.
Qed.

Lemma sameExactType_sym (a b : File) : sameExactType a b = sameExactType b a.
Proof. unfold sameExactType. apply String.eqb_sym. Qed.

Lemma sameMainType_sym (a b : File) : sameMainType a b = sameMainType b a.
Proof. unfold sameMainType. apply opt_eqb_sym. Qed.

Lemma sameExtension_sym (a b : File) : sameExtension a b = sameExtension b a.
Proof. unfold sameExtension. apply opt_eqb_sym. Qed.

Lemma hasCommonKeywords_sym (a b : File) : hasCommonKeywords a b = hasCommonKeywords b a.
Proof.
  unfold hasCommonKeywords. rewrite !filter_nonempty_existsb.
  rewrite existsb_swap. apply existsb_pointwise. intros f.
  apply existsb_pointwise. intros k.
  rewrite (String.eqb_sym f k).
  rewrite (orb_comm (includes f k) (includes k f)). reflexivity.
Qed.

(** C2. The matching predicate is symmetric: [isMatch a b = isMatch b a] for
    every pair of files, and so is the whole filter callback, which first
    excludes the file compared against itself. *)
Theorem isMatch_symmetric (a b : File) :
  isMatch a b = isMatch b a
  /\ similarTo (id a) a b = similarTo (id b) b a.
Proof.
  assert (H : isMatch a b = isMatch b a).
  { unfold isMatch.
    rewrite (sameExactType_sym a b), (sameMainType_sym a b),
      (sameExtension_sym a b), (hasCommonKeywords_sym a b).
    reflexivity. }
  split; [exact H|].
  unfold similarTo. rewrite (String.eqb_sym (id b) (id a)), H. reflexivity.
Qed.

(** *** Splitting a name at its dots and at the blanks of its keyword form *)

Lemma includes_char (c d : ascii) (r : string) :
  includes (String d r) (String c "") = Ascii.eqb d c || includes r (String c "").
Proof.
  cbn [includes String.prefix].
  destruct (Ascii.eqb_spec d c) as [->|Hne].
  - destruct (ascii_dec c c) as [_|Hn]; [|contradiction].
    destruct r; reflexivity.
  - destruct (ascii_dec c d) as [->|_]; [contradiction|]. reflexivity.
Qed.

Lemma includes_char_nil (c : ascii) : includes "" (String c "") = false.
Proof. reflexivity. Qed.

Lemma split_nonempty (c : ascii) (s : string) : split c s <> [].
Proof.
  destruct s as [|d r]; cbn [split]; [discriminate|].
  destruct (Ascii.eqb d c); [discriminate|].
  destruct (split c r); discriminate.
Qed.

Lemma split_app_sep (c : ascii) (q r : string) :
  split c (q ++ String c r)%string = split c q ++ split c r.
Proof.
  induction q as [|d q IH]; cbn [String.append split app].
  - rewrite Ascii.eqb_refl. reflexivity.
  - destruct (Ascii.eqb d c); [rewrite IH; reflexivity|].
    rewrite IH. pose proof (split_nonempty c q) as Hq.
    destruct (split c q) as [|w ws]; [contradiction|]. reflexivity.
Qed.

Lemma split_no_sep (c : ascii) (s : string) :
  includes s (String c "") = false -> split c s = [s].
Proof.
  induction s as [|d r IH]; intros H; [reflexivity|].
  rewrite includes_char in H. apply orb_false_iff in H. destruct H as [Hd Hr].
  cbn [split]. rewrite Hd, (IH Hr). reflexivity.
Qed.

Lemma pop_cons_nonempty (x : string) (l : list string) :
  l <> [] -> pop (x :: l) = pop l.
Proof. destruct l; [contradiction|reflexivity]. Qed.

(** A name that contains the separator is a prefix, the separator and the
    last piece of its split; the last piece holds no separator. *)
Lemma pop_split_decompose (c : ascii) (s x : string) :
  includes s (String c "") = true ->
  pop (split c s) = Some x ->
  exists p, s = (p ++ String c x)%string /\ includes x (String c "") = false.
Proof.
  revert x. induction s as [|d r IH]; intros x Hin Hpop; [discriminate|].
  rewrite includes_char in Hin. cbn [split] in Hpop.
  destruct (Ascii.eqb_spec d c) as [->|Hne].
  - rewrite (pop_cons_nonempty _ _ (split_nonempty c r)) in Hpop.
    destruct (includes r (String c "")) eqn:Hr.
    + destruct (IH x eq_refl Hpop) as (p & -> & Hx).
      exists (String c p). split; [reflexivity|exact Hx].
    + rewrite (split_no_sep c r Hr) in Hpop. injection Hpop as <-.
      exists ""%string. split; [reflexivity|exact Hr].
  - cbn [orb] in Hin.
    destruct (split c r) as [|w ws] eqn:Hs; [destruct (split_nonempty c r Hs)|].
    destruct ws as [|w' ws].
    + exfalso. destruct (IH w Hin eq_refl) as (p & Hp & _).
      rewrite Hp, split_app_sep in Hs.
      pose proof (split_nonempty c p) as H1. pose proof (split_nonempty c w) as H2.
      destruct (split c p); [contradiction|]. destruct (split c w); [contradiction|].
      destruct l; discriminate.
    + change (pop (String d w :: w' :: ws)) with (pop (w :: w' :: ws)) in Hpop.
      destruct (IH x Hin Hpop) as (p & -> & Hx).
      exists (String d p). split; [reflexivity|exact Hx].
Qed.

Lemma toLowerCase_app (p s : string) :
  toLowerCase (p ++ s)%string = (toLowerCase p ++ toLowerCase s)%string.
Proof. induction p as [|c p IH]; cbn; [reflexivity|]. rewrite IH. reflexivity. Qed.

Lemma replace_non_alnum_app (p s : string) :
  replace_non_alnum (p ++ s)%string = (replace_non_alnum p ++ replace_non_alnum s)%string.
Proof. induction p as [|c p IH]; cbn; [reflexivity|]. rewrite IH. reflexivity. Qed.

Lemma replace_alnum_id (e : string) : all_alnum e = true -> replace_non_alnum e = e.
Proof.
  induction e as [|c e IH]; cbn [all_alnum replace_non_alnum]; intros H; [reflexivity|].
  apply andb_true_iff in H. destruct H as [Hc He].
  rewrite Hc, (IH He). reflexivity.
Qed.

Lemma alnum_no_blank (e : string) : all_alnum e = true -> includes e " " = false.
Proof.
  induction e as [|c e IH]; cbn [all_alnum]; intros H; [reflexivity|].
  apply andb_true_iff in H. destruct H as [Hc He].
  rewrite includes_char, (IH He), orb_false_r.
  destruct (Ascii.eqb_spec c " "%char) as [->|]; [discriminate Hc|reflexivity].
Qed.

(** The tokenizer turns the last dot into a blank, so an extension written
    with letters and digits only and longer than two characters is a keyword
    of the name. *)
Lemma extension_is_keyword (fileName e : string) :
  includes fileName "." = true ->
  opt_toLowerCase (pop (split "." fileName)) = Some e ->
  all_alnum e = true ->
  3 <= String.length e ->
  In e (keywordsOf fileName).
Proof.
  intros Hdot Hext Halnum Hlen.
  destruct (pop (split "." fileName)) as [x|] eqn:Hpop; [|discriminate].
  cbn [opt_toLowerCase option_map] in Hext. injection Hext as He.
  destruct (pop_split_decompose "." fileName x Hdot Hpop) as (p & -> & _).
  unfold keywordsOf.
  rewrite toLowerCase_app. cbn [toLowerCase]. rewrite He.
  change (lower_char ".") with "."%char.
  rewrite replace_non_alnum_app. cbn [replace_non_alnum].
  change (is_alnum ".") with false. cbv iota.
  rewrite (replace_alnum_id e Halnum), split_app_sep.
  rewrite (split_no_sep " " e (alnum_no_blank e Halnum)).
  rewrite filter_app. apply in_or_app. right.
  cbn [filter]. replace (2 <? String.length e) with true; [left; reflexivity|].
  symmetry. apply Nat.ltb_lt. lia.
Qed.

(** C5, as stated, fails: ["draft.v-2"] and ["final.v-2"] are distinct files,
    both names contain a dot and end in the same extension of length 3, yet
    the extension is no keyword of either name, the files share no keyword
    and they do not match. *)
Lemma same_extension_without_shared_keyword :
  id Scenario.draftV2 <> id Scenario.finalV2
  /\ includes (original_name Scenario.draftV2) "." = true
  /\ includes (original_name Scenario.finalV2) "." = true
  /\ opt_toLowerCase (pop (split "." (original_name Scenario.draftV2))) = Some "v-2"
  /\ opt_toLowerCase (pop (split "." (original_name Scenario.finalV2))) = Some "v-2"
  /\ 3 <= String.length "v-2"
  /\ keywordsOf (original_name Scenario.draftV2) = ["draft"]
  /\ keywordsOf (original_name Scenario.finalV2) = ["final"]
  /\ sameExtension Scenario.draftV2 Scenario.finalV2 = true
  /\ hasCommonKeywords Scenario.draftV2 Scenario.finalV2 = false
  /\ isMatch Scenario.draftV2 Scenario.finalV2 = false
  /\ similarTo (id Scenario.draftV2) Scenario.draftV2 Scenario.finalV2 = false.
Proof.
  split; [discriminate|].
  repeat (split; [vm_compute; reflexivity|]).
  vm_compute; reflexivity.
Qed.

(** C5, amended. For two files whose original names both contain a dot and end
    in the same lowercased extension, of length at least 3 and written with
    the characters a-z and 0-9 only, the extension is a keyword of both names,
    so clause (c) holds and the files match whatever their MIME types. *)
Theorem same_alnum_extension_matches (a b : File) (e : string) :
  includes (original_name a) "." = true ->
  includes (original_name b) "." = true ->
  opt_toLowerCase (pop (split "." (original_name a))) = Some e ->
  opt_toLowerCase (pop (split "." (original_name b))) = Some e ->
  3 <= String.length e ->
  all_alnum e = true ->
  In e (keywordsOf (original_name a))
  /\ In e (keywordsOf (original_name b))
  /\ sameExtension a b && hasCommonKeywords a b = true
  /\ isMatch a b = true
  /\ (id b <> id a -> similarTo (id a) a b = true).
Proof.
  intros Hda Hdb Hea Heb Hlen Halnum.
  pose proof (extension_is_keyword _ e Hda Hea Halnum Hlen) as Ka.
  pose proof (extension_is_keyword _ e Hdb Heb Halnum Hlen) as Kb.
  assert (Hext : sameExtension a b = true).
  { unfold sameExtension. rewrite Hea, Heb. cbn [opt_eqb]. apply String.eqb_refl. }
  assert (Hkw : hasCommonKeywords a b = true).
  { unfold hasCommonKeywords. rewrite filter_nonempty_existsb.
    apply existsb_exists. exists e. split; [exact Ka|].
    apply existsb_exists. exists e. split; [exact Kb|].
    rewrite String.eqb_refl. apply orb_true_r. }
  assert (Hm : isMatch a b = true).
  { unfold isMatch. rewrite Hext, Hkw. apply orb_true_r. }
  repeat split; try assumption.
  - rewrite Hext, Hkw. reflexivity.
  - intros Hid. unfold similarTo.
    destruct (String.eqb_spec (id b) (id a)) as [Heq|_]; [contradiction|exact Hm].
Qed.

Lemma same_alnum_extension_matches_witness :
  In "pdf" (keywordsOf (original_name Scenario.holidayPdf))
  /\ In "pdf" (keywordsOf (original_name Scenario.taxesPDF))
  /\ sameExtension Scenario.holidayPdf Scenario.taxesPDF
     && hasCommonKeywords Scenario.holidayPdf Scenario.taxesPDF = true
  /\ isMatch Scenario.holidayPdf Scenario.taxesPDF = true
  /\ (id Scenario.taxesPDF <> id Scenario.holidayPdf ->
      similarTo (id Scenario.holidayPdf) Scenario.holidayPdf Scenario.taxesPDF = true).
Proof.
  apply (same_alnum_extension_matches Scenario.holidayPdf Scenario.taxesPDF "pdf");
    first [vm_compute; reflexivity | cbn; lia].
Defined.

End Matcher.

(* ------------------------------------------------------------------------- *)
(** * Properties of the data access layer                                     *)
(* ------------------------------------------------------------------------- *)

Section StorageFacts.
Variable env : Oracle.

Lemma bind_returned {A B} (m : M A) (k : A -> M B) (w w' : World) (b : B) :
  bind m k w = (Returned b, w') ->
  exists a w1, m w = (Returned a, w1) /\ k a w1 = (Returned b, w').
Proof.
  unfold bind. intros H. destruct (m w) as [[a|] w1]; [|discriminate].
  exists a, w1. split; [reflexivity|exact H].
Qed.

Lemma single_In {A} (rows : list A) (r : A) : single rows = Some r -> rows = [r].
Proof.
  destruct rows as [|x [|y rows]]; cbn; intros H; try discriminate.
  injection H as ->. reflexivity.
Qed.

Lemma selects_id (ident userId : string) (f : File) :
  selects ident userId f = true -> id f = ident.
Proof.
  unfold selects. intros H. apply andb_true_iff in H. destruct H as [H _].
  apply String.eqb_eq. exact H.
Qed.

Lemma selects_apply_updates (ident userId : string) (u : FileUpdates) (f : File) :
  selects ident userId (apply_updates u f) = selects ident userId f.
Proof. reflexivity. Qed.

(** The row [getFile] returns carries the identity that was asked for. *)
Lemma getFile_id (ident userId : string) (w w' : World) (f : File) :
  getFile env ident userId w = (Returned (Some f), w') -> id f = ident.
Proof.
  unfold getFile, db_call. destruct (db_error env (db_calls w)); intros H; [discriminate|].
  injection H as H _. apply single_In in H.
  assert (Hin : In f (filter (selects ident userId) (files w))).
  { cbn [files] in H. rewrite H. left. reflexivity. }
  apply filter_In in Hin. destruct Hin as [_ Hsel].
  exact (selects_id _ _ _ Hsel).
Qed.

(** The row [updateFile] returns is the selected row after the overwrite. *)
Lemma updateFile_returned (ident userId : string) (u : FileUpdates)
      (w w' : World) (r : File) :
  updateFile env ident u userId w = (Returned (Some r), w') ->
  id r = ident
  /\ exists f, In f (files w) /\ selects ident userId f = true /\ r = apply_updates u f.
Proof.
  unfold updateFile, db_call. destruct (db_error env (db_calls w)); intros H; [discriminate|].
  destruct (known_columns u); cbn [negb] in H; [|discriminate].
  injection H as H _. apply single_In in H. cbn [files] in H.
  assert (Hin : In r (filter (selects ident userId)
                        (map (fun f => if selects ident userId f then apply_updates u f else f)
                             (files w)))).
  { rewrite H. left. reflexivity. }
  apply filter_In in Hin. destruct Hin as [Hin Hsel].
  split; [exact (selects_id _ _ _ Hsel)|].
  apply in_map_iff in Hin. destruct Hin as (f & Hf & Hin).
  exists f. destruct (selects ident userId f) eqn:Hs.
  - repeat split; [exact Hin|symmetry; exact Hf].
  - subst r. rewrite Hs in Hsel. discriminate.
Qed.

(** An update that names the folder under the key [folderId] is refused: it
    returns [undefined] and costs one call, whatever the store holds. *)
Lemma updateFile_unknown_column (ident userId : string) (u : FileUpdates) (w : World) :
  known_columns u = false ->
  updateFile env ident u userId w = (Returned None, snd (db_call w)).
Proof.
  intros Hu. unfold updateFile, db_call. rewrite Hu. cbn.
  destruct (db_error env (db_calls w)); reflexivity.
Qed.

End StorageFacts.

(* ------------------------------------------------------------------------- *)
(** * Properties of apply-to-similar                                          *)
(* ------------------------------------------------------------------------- *)

Section ApplyToSimilar.
Variable env : Oracle.

(** No file the filter keeps carries the identity of the source. *)
Lemma similarFilesOf_excludes_source (ident : string) (src : File) (allFiles : list File)
      (m : File) :
  In m (similarFilesOf ident src allFiles) -> id m <> ident.
Proof.
  unfold similarFilesOf. intros H. apply filter_In in H. destruct H as [_ H].
  unfold similarTo in H. intros Heq. rewrite Heq, String.eqb_refl in H. discriminate.
Qed.

(** Every row the loop adds to [updatedFiles] carries the tags of the source
    and the identity of the file of its turn. *)
Lemma applyTags_loop (userId : string) (src : File) (P : File -> Prop) :
  forall (similarFiles acc res : list File) (w w' : World),
    (forall file u, In file similarFiles ->
                    id u = id file -> file_tags u = file_tags src -> P u) ->
    (forall u, In u acc -> P u) ->
    for_of similarFiles (applyTagsTo env userId src) acc w = (Returned res, w') ->
    (forall u, In u res -> P u) /\ length res <= length acc + length similarFiles.
Proof.
  induction similarFiles as [|file rest IH]; intros acc res w w' Hstep Hacc Hrun.
  - cbn in Hrun. injection Hrun as <- _. split; [exact Hacc|lia].
  - cbn [for_of] in Hrun. apply bind_returned in Hrun.
    destruct Hrun as (acc1 & w1 & Hone & Hrest).
    assert (Hacc1 : (forall u, In u acc1 -> P u) /\ length acc1 <= S (length acc)).
    { unfold applyTagsTo, try_catch, bind in Hone.
      destruct (updateFile env (id file) _ userId w) as [[[u|]|] w2] eqn:Hupd;
        cbn in Hone; injection Hone as <- _.
      - apply updateFile_returned in Hupd. destruct Hupd as (Hid & f & _ & _ & ->).
        split.
        + intros u Hu. apply in_app_or in Hu. destruct Hu as [Hu|[<-|[]]].
          * exact (Hacc u Hu).
          * apply (Hstep file); [left; reflexivity|exact Hid|reflexivity].
        + rewrite length_app. cbn. lia.
      - split; [exact Hacc|lia].
      - split; [exact Hacc|lia]. }
    destruct Hacc1 as [Hacc1 Hlen1].
    destruct (IH acc1 res w1 w') as [HP Hlen]; [| exact Hacc1 | exact Hrest |].
    + intros f u Hf. apply Hstep. right. exact Hf.
    + split; [exact HP|]. cbn [length]. lia.
Qed.

(** C1. Whenever apply-to-similar answers with its report, the source file is
    the row with the requested identity, every file in [updatedFiles] has
    exactly the tag list of the source file (whatever its own tags were), and
    neither a matched file nor an updated file is the source file itself. *)
Theorem applyToSimilar_replaces_tags (ident userId : string) (w w' : World)
        (r : ApplyReply) :
  applyToSimilar env ident userId w = (Returned (Json r), w') ->
  id (sourceFile r) = ident
  /\ (forall u, In u (updatedFiles r) ->
                file_tags u = file_tags (sourceFile r) /\ id u <> id (sourceFile r))
  /\ (forall allFiles m, In m (similarFilesOf ident (sourceFile r) allFiles) ->
                         id m <> id (sourceFile r))
  /\ count r = length (updatedFiles r)
  /\ count r <= similarFilesFound r.
Proof.
  unfold applyToSimilar, try_catch. intros H.
  destruct (bind (getFile env ident userId) _ w) as [[resp|] w1] eqn:E;
    [|discriminate].
  injection H as -> ->.
  apply bind_returned in E. destruct E as (found & w2 & Hget & E).
  destruct found as [src|]; [|discriminate].
  apply getFile_id in Hget.
  apply bind_returned in E. destruct E as (allFiles & w3 & _ & E).
  apply bind_returned in E. destruct E as (updated & w4 & Hloop & E).
  injection E as <- _. cbn [sourceFile updatedFiles count similarFilesFound].
  apply (applyTags_loop userId src
           (fun u => file_tags u = file_tags src /\ id u <> id src)) in Hloop.
  - destruct Hloop as [HP Hlen]. cbn [length] in Hlen.
    repeat split; try assumption.
    + apply (HP u H).
    + apply (HP u H).
    + intros all m Hm. rewrite Hget. exact (similarFilesOf_excludes_source _ _ _ _ Hm).
  - intros file u Hfile Hid Htags. split; [exact Htags|].
    rewrite Hid, Hget. exact (similarFilesOf_excludes_source _ _ _ _ Hfile).
  - intros u [].
Qed.

End ApplyToSimilar.

Lemma applyToSimilar_replaces_tags_witness :
  exists r w',
    applyToSimilar Scenario.aiDown "1" "alice" Scenario.reports = (Returned (Json r), w')
    /\ map id (updatedFiles r) = ["2"]
    /\ id (sourceFile r) = "1"
    /\ (forall u, In u (updatedFiles r) ->
                  file_tags u = file_tags (sourceFile r) /\ id u <> id (sourceFile r))
    /\ (forall allFiles m, In m (similarFilesOf "1" (sourceFile r) allFiles) ->
                           id m <> id (sourceFile r))
    /\ count r = length (updatedFiles r)
    /\ count r <= similarFilesFound r.
Proof.
  eexists. eexists.
  split; [vm_compute; reflexivity|].
  split; [reflexivity|].
  eapply (applyToSimilar_replaces_tags Scenario.aiDown "1" "alice" Scenario.reports).
  vm_compute. reflexivity.
Defined.

(* ------------------------------------------------------------------------- *)
(** * Properties of organize-files                                            *)
(* ------------------------------------------------------------------------- *)

(** C3 (the code departs from the claim). With one unfoldered resume, the AI
    endpoint down and a store that fails no call, organize-files reports one
    file moved although the row is as it was, without a folder: the update
    names the folder under the key [folderId], the store refuses it,
    [updateFile] returns [undefined] and the loop counts the move all the
    same.  The report is the same when the store fails the [updateFile] call
    itself (its call number 3).  With two resumes and the store failing
    [createFolder] (call number 2), the handler answers 500 and the second
    file is never tagged. *)
Theorem organizeFiles_counts_failed_move :
  (exists w',
      organizeFiles (Scenario.aiDownDbFailsAt 3) "alice" Scenario.oneResume
      = (Returned (Json {| success := true; foldersCreated := 1; filesMoved := 1 |}), w')
      /\ files w' = files Scenario.oneResume
      /\ map folder_id (files w') = [None])
  /\ (exists w',
         organizeFiles Scenario.aiDown "alice" Scenario.oneResume
         = (Returned (Json {| success := true; foldersCreated := 1; filesMoved := 1 |}), w')
         /\ files w' = files Scenario.oneResume
         /\ map folder_id (files w') = [None])
  /\ (exists w',
         organizeFiles (Scenario.aiDownDbFailsAt 2) "alice" Scenario.twoResumes
         = (Returned (Status 500), w')
         /\ length (unfoldered (files Scenario.twoResumes)) = 2
         /\ ai_calls w' = 1
         /\ files w' = files Scenario.twoResumes).
Proof.
  split; [eexists; split; [vm_compute; reflexivity|split; vm_compute; reflexivity]|].
  split; [eexists; split; [vm_compute; reflexivity|split; vm_compute; reflexivity]|].
  eexists; split; [vm_compute; reflexivity|repeat split; vm_compute; reflexivity].
Qed.

Section OrganizeFiles.
Variable env : Oracle.
Variable userId : string.

Local Ltac crunch :=
  unfold organizeOne, bind, generateFileTags, getAllFolders, createFolder, updateFile,
    db_call, ret;
  repeat (cbn -[generateFallbackTags owned_by selects];
          match goal with
          | |- context [gemini env ?a ?b ?c] => destruct (gemini env a b c) eqn:?
          | |- context [db_error env ?n] => destruct (db_error env n) eqn:?
          | |- context [find ?p ?l] => destruct (find p l) eqn:?
          | |- context [suggestedFolderName ?t] => destruct (suggestedFolderName t) eqn:?
          | |- context [String.eqb ?s ""] => destruct (String.eqb s "") eqn:?
          end);
  cbn -[generateFallbackTags owned_by selects].

(** What one turn of the loop does to the world: a skipped file costs
    nothing; otherwise one request is made to the tagging service, and the
    file table is either left as it is or overwritten at the rows that carry
    the identity of the file of this turn; a tagging result without folder
    name leaves both tables as they are. *)
Lemma organizeOne_shape (c : Counters) (g : File) (w1 : World) :
  let out := fst (organizeOne env userId c g w1) in
  let w2 := snd (organizeOne env userId c g w1) in
  (files w2 = files w1
   \/ exists u, files w2
                = map (fun r => if selects (id g) userId r then apply_updates u r else r)
                      (files w1))
  /\ (truthy (folder_id g) = true -> w2 = w1 /\ out = Returned c)
  /\ (truthy (folder_id g) = false ->
      ai_calls w2 = S (ai_calls w1)
      /\ (truthy (suggestedFolderName (taggingAt env (ai_calls w1) g)) = false ->
          files w2 = files w1 /\ folders w2 = folders w1 /\ out = Returned c)).
Proof.
  cbv zeta. destruct (truthy (folder_id g)) eqn:Hg.
  - unfold organizeOne. rewrite Hg. cbn.
    split; [left; reflexivity|]. split; [intros _; split; reflexivity|discriminate].
  - split; [|split; [discriminate|intros _; split]].
    + unfold organizeOne. rewrite Hg.
      crunch; first [left; reflexivity | right; eexists; reflexivity].
    + unfold organizeOne. rewrite Hg. crunch; reflexivity.
    + unfold organizeOne, taggingAt. rewrite Hg. unfold truthy.
      crunch; intros Hno; first [discriminate Hno | repeat split].
Qed.

(** *** The frame of a run: rows of other files, rows without suggestion *)

Lemma for_of_cons {A S} (x : A) (r : list A) (body : S -> A -> M S) (s : S) (w : World) :
  snd (for_of (x :: r) body s w)
  = match fst (body s x w) with
    | Returned s' => snd (for_of r body s' (snd (body s x w)))
    | Thrown => snd (body s x w)
    end.
Proof.
  cbn [for_of]. unfold bind. destruct (body s x w) as [[s'|] w2]; reflexivity.
Qed.

Lemma row_kept_by_other (c : Counters) (g f : File) (w1 : World) (i : nat) :
  id g <> id f ->
  nth_error (files w1) i = Some f ->
  nth_error (files (snd (organizeOne env userId c g w1))) i = Some f.
Proof.
  intros Hid Hrow.
  destruct (organizeOne_shape c g w1) as [[Hsame|[u Hmap]] _].
  - rewrite Hsame. exact Hrow.
  - rewrite Hmap, nth_error_map, Hrow. cbn [option_map].
    unfold selects. destruct (String.eqb_spec (id f) (id g)) as [Heq|_].
    + symmetry in Heq. contradiction.
    + reflexivity.
Qed.

Lemma loop_keeps_other_rows (f : File) (i : nat) :
  forall (l : list File) (c : Counters) (w1 : World),
    (forall g, In g l -> id g <> id f) ->
    nth_error (files w1) i = Some f ->
    nth_error (files (snd (for_of l (organizeOne env userId) c w1))) i = Some f.
Proof.
  induction l as [|g rest IH]; intros c w1 Hother Hrow; [exact Hrow|].
  rewrite for_of_cons.
  assert (Hkept := row_kept_by_other c g f w1 i (Hother g (or_introl eq_refl)) Hrow).
  destruct (fst (organizeOne env userId c g w1)) as [c'|]; [|exact Hkept].
  apply IH; [|exact Hkept]. intros g' Hg'. apply Hother. right. exact Hg'.
Qed.

Lemma unfoldered_In (l : list File) (k : nat) (f : File) :
  nth_error (unfoldered l) k = Some f -> In f l.
Proof.
  intros H. apply nth_error_In in H. unfold unfoldered in H.
  apply filter_In in H. exact (proj1 H).
Qed.

Lemma NoDup_ids_other (g f : File) (rest : list File) :
  NoDup (map id (g :: rest)) -> In f rest -> id g <> id f.
Proof.
  cbn [map]. intros Hnd Hin Heq. inversion Hnd as [|? ? Hnotin _]; subst.
  apply Hnotin. rewrite Heq. apply in_map. exact Hin.
Qed.

Lemma loop_keeps_unsuggested_row (f : File) (i : nat) :
  forall (l : list File) (c : Counters) (w1 : World) (k : nat),
    NoDup (map id l) ->
    nth_error (unfoldered l) k = Some f ->
    truthy (suggestedFolderName (taggingAt env (ai_calls w1 + k) f)) = false ->
    nth_error (files w1) i = Some f ->
    nth_error (files (snd (for_of l (organizeOne env userId) c w1))) i = Some f.
Proof.
  induction l as [|g rest IH]; intros c w1 k Hnd Hk Hno Hrow.
  - destruct k; discriminate Hk.
  - rewrite for_of_cons.
    assert (Hnd' : NoDup (map id rest)) by (inversion Hnd; assumption).
    destruct (organizeOne_shape c g w1) as (_ & Hskip & Hturn).
    unfold unfoldered in Hk. cbn [filter] in Hk. fold (unfoldered rest) in Hk.
    destruct (truthy (folder_id g)) eqn:Hg; cbn [negb] in Hk.
    + destruct (Hskip eq_refl) as [-> ->]. exact (IH c w1 k Hnd' Hk Hno Hrow).
    + destruct (Hturn eq_refl) as [Hai Hquiet]. destruct k as [|k'].
      * cbn [nth_error] in Hk. injection Hk as ->. rewrite Nat.add_0_r in Hno.
        destruct (Hquiet Hno) as (Hfiles & _ & ->).
        apply loop_keeps_other_rows; [|rewrite Hfiles; exact Hrow].
        intros g' Hg' Heq. inversion Hnd as [|? ? Hnotin _]; subst.
        apply Hnotin. rewrite <- Heq. apply in_map. exact Hg'.
      * cbn [nth_error] in Hk.
        assert (Hid : id g <> id f)
          by exact (NoDup_ids_other g f rest Hnd (unfoldered_In rest k' f Hk)).
        assert (Hkept := row_kept_by_other c g f w1 i Hid Hrow).
        destruct (fst (organizeOne env userId c g w1)) as [c'|]; [|exact Hkept].
        apply (IH c' _ k' Hnd' Hk); [|exact Hkept].
        rewrite Hai. replace (S (ai_calls w1) + k') with (ai_calls w1 + S k') by lia.
        exact Hno.
Qed.

Lemma NoDup_map_filter {A B} (h : A -> B) (p : A -> bool) (l : list A) :
  NoDup (map h l) -> NoDup (map h (filter p l)).
Proof.
  induction l as [|x l IH]; cbn; intros H; [constructor|].
  inversion H as [|? ? Hnotin Hnd]; subst.
  destruct (p x); cbn; [constructor|]; auto.
  intros Hin. apply Hnotin. apply in_map_iff in Hin. destruct Hin as (y & Hy & Hin).
  apply in_map_iff. exists y. split; [exact Hy|].
  apply filter_In in Hin. exact (proj1 Hin).
Qed.

(** The world after organize-files is the world after its loop; nothing else
    in the handler writes. *)
Lemma organizeFiles_world (w : World) :
  let listed := {| files := files w; folders := folders w;
                   ai_calls := ai_calls w; db_calls := S (db_calls w) |} in
  snd (organizeFiles env userId w)
  = if db_error env (db_calls w) then listed
    else snd (for_of (filter (fun r => owned_by userId (user_id r)) (files w))
                     (organizeOne env userId) {| created := 0; moved := 0 |} listed).
Proof.
  unfold organizeFiles, try_catch, bind, getAllFiles, db_call, ret. cbn.
  destruct (db_error env (db_calls w)); cbn; [reflexivity|].
  destruct (for_of _ _ _ _) as [[c|] w2]; reflexivity.
Qed.

(** C7. During organize-files, an unfoldered file whose tagging result holds no
    suggested folder name is left exactly as it was: after the run its row is
    the same row (no folder, the same tags, every other field as before).
    File identities are unique in the table (the primary key); the file is
    the [k]-th one the loop does not skip, and its tagging result is the one
    of the [k]-th request of the run. *)
Theorem organizeFiles_keeps_unsuggested_file (w : World) (k i : nat) (f : File) :
  NoDup (map id (files w)) ->
  nth_error (unfoldered (filter (fun r => owned_by userId (user_id r)) (files w))) k
  = Some f ->
  truthy (suggestedFolderName (taggingAt env (ai_calls w + k) f)) = false ->
  nth_error (files w) i = Some f ->
  nth_error (files (snd (organizeFiles env userId w))) i = Some f
  /\ truthy (folder_id f) = false.
Proof.
  intros Hnd Hk Hno Hrow. split.
  - rewrite organizeFiles_world. cbv zeta.
    destruct (db_error env (db_calls w)); [exact Hrow|].
    apply (loop_keeps_unsuggested_row f i _ _ _ k).
    + apply NoDup_map_filter. exact Hnd.
    + exact Hk.
    + exact Hno.
    + exact Hrow.
  - apply nth_error_In in Hk. unfold unfoldered in Hk. apply filter_In in Hk.
    destruct Hk as [_ Hk]. apply negb_true_iff in Hk. exact Hk.
Qed.

(** *** Which failures a turn survives, and what it counts *)

(** A failing request to the AI endpoint never leaves the loop: the tagging
    service always returns. *)
Lemma generateFileTags_returns (fileName fileType : string) (w : World) :
  fst (generateFileTags env fileName fileType w)
  = Returned (match gemini env (ai_calls w) fileName fileType with
              | Some data => data
              | None => generateFallbackTags fileName fileType
              end).
Proof.
  unfold generateFileTags. destruct (gemini env (ai_calls w) fileName fileType); reflexivity.
Qed.

(** A failing update never throws either: it returns [undefined]. *)
Lemma updateFile_never_throws (ident : string) (u : FileUpdates) (w : World) :
  fst (updateFile env ident u userId w) <> Thrown.
Proof.
  unfold updateFile, db_call.
  destruct (db_error env (db_calls w)); [discriminate|].
  destruct (known_columns u); discriminate.
Qed.

(** A turn that reaches the update counts a move whatever the update
    returned. *)
Lemma organizeOne_counts_move (c c' : Counters) (g : File) (w1 : World) :
  truthy (folder_id g) = false ->
  truthy (suggestedFolderName (taggingAt env (ai_calls w1) g)) = true ->
  fst (organizeOne env userId c g w1) = Returned c' ->
  moved c' = S (moved c).
Proof.
  intros Hg. unfold organizeOne, taggingAt. rewrite Hg. unfold truthy.
  crunch; intros Hs H; first [discriminate Hs | discriminate H | injection H as <-; reflexivity].
Qed.

(** A turn whose listing finds a folder of the suggested name creates none. *)
Lemma organizeOne_reuses_folder (c : Counters) (g : File) (w1 : World)
      (suggested : string) (d : Folder) :
  truthy (folder_id g) = false ->
  suggestedFolderName (taggingAt env (ai_calls w1) g) = Some suggested ->
  db_error env (db_calls w1) = false ->
  find (fun folder => String.eqb (toLowerCase (name folder)) (toLowerCase suggested))
       (filter (fun x => owned_by userId (folder_user_id x)) (folders w1)) = Some d ->
  folders (snd (organizeOne env userId c g w1)) = folders w1.
Proof.
  intros Hg. unfold organizeOne, taggingAt. rewrite Hg. unfold truthy.
  crunch; intros Hs Hdb Hfind;
    first [reflexivity | congruence | injection Hs as ->; congruence].
Qed.

(** *** Folder creation during a run *)

Lemma owned_by_self : owned_by userId userId = true.
Proof.
  unfold owned_by. destruct (truthy (Some userId)); [apply String.eqb_refl|reflexivity].
Qed.

Lemma freshFolders_add (before created : list Folder) (suggested : string)
      (ident : string) (stamp : Z) :
  freshFolders userId before created ->
  find (fun folder => String.eqb (toLowerCase (name folder)) (toLowerCase suggested))
       (filter (fun d => owned_by userId (folder_user_id d)) (created ++ before)) = None ->
  freshFolders userId before
    ({| folder_ident := ident; name := suggested; parent_id := None;
        folder_user_id := userId; created_at := stamp; is_ai_generated := true |}
     :: created).
Proof.
  intros (Hown & Hnd & Hdis) Hfind.
  assert (Hnew : forall d, In d (created ++ before) ->
                           owned_by userId (folder_user_id d) = true ->
                           toLowerCase (name d) <> toLowerCase suggested).
  { intros d Hd Ho Heq.
    pose proof (find_none _ _ Hfind d) as Hn. cbv beta in Hn.
    rewrite Heq, String.eqb_refl in Hn.
    assert (true = false); [|discriminate].
    apply Hn. apply filter_In. split; assumption. }
  repeat split.
  - constructor; [split; reflexivity|exact Hown].
  - cbn [map name]. constructor; [|exact Hnd].
    intros Hin. apply in_map_iff in Hin. destruct Hin as (c & Hc & Hin).
    apply (Hnew c); [apply in_or_app; left; exact Hin| |exact Hc].
    rewrite Forall_forall in Hown. destruct (Hown c Hin) as [-> _]. apply owned_by_self.
  - intros c d [<-|Hc] Hd Ho.
    + cbn [name]. apply Hnew; [apply in_or_app; right; exact Hd|exact Ho].
    + exact (Hdis c d Hc Hd Ho).
Qed.

(** One turn of the loop keeps the folders created so far fresh, and counts
    each creation once. *)
Lemma organizeOne_folders (before created : list Folder) (c : Counters) (g : File)
      (w1 : World) :
  folders w1 = created ++ before ->
  freshFolders userId before created ->
  Routes.created c = length created ->
  exists created',
    folders (snd (organizeOne env userId c g w1)) = created' ++ before
    /\ freshFolders userId before created'
    /\ (forall c', fst (organizeOne env userId c g w1) = Returned c' ->
                   Routes.created c' = length created').
Proof.
  intros Hf Hfresh Hcount.
  unfold organizeOne. destruct (truthy (folder_id g)).
  { exists created. cbn. split; [exact Hf|]. split; [exact Hfresh|].
    intros c' H. injection H as <-. exact Hcount. }
  unfold truthy. crunch;
    try (exists created; split; [exact Hf|]; split; [exact Hfresh|];
         intros c' H; first [discriminate H | injection H as <-; exact Hcount]).
  all: rewrite Hf in *.
  all: eexists (_ :: created); split; [reflexivity|];
    (split; [apply freshFolders_add; eassumption|]);
    intros c' H; first [discriminate H | injection H as <-; cbn; rewrite Hcount; reflexivity].
Qed.

Lemma loop_folders (before : list Folder) :
  forall (l : list File) (created : list Folder) (c : Counters) (w1 : World),
    folders w1 = created ++ before ->
    freshFolders userId before created ->
    Routes.created c = length created ->
    exists created',
      folders (snd (for_of l (organizeOne env userId) c w1)) = created' ++ before
      /\ freshFolders userId before created'
      /\ (forall c', fst (for_of l (organizeOne env userId) c w1) = Returned c' ->
                     Routes.created c' = length created').
Proof.
  induction l as [|g rest IH]; intros created c w1 Hf Hfresh Hcount.
  - exists created. cbn. split; [exact Hf|]. split; [exact Hfresh|].
    intros c' H. injection H as <-. exact Hcount.
  - destruct (organizeOne_folders before created c g w1 Hf Hfresh Hcount)
      as (created1 & Hf1 & Hfresh1 & Hcount1).
    cbn [for_of]. unfold bind.
    destruct (organizeOne env userId c g w1) as [[c1|] w2]; cbn [fst snd] in *.
    + exact (IH created1 c1 w2 Hf1 Hfresh1 (Hcount1 c1 eq_refl)).
    + exists created1. split; [exact Hf1|]. split; [exact Hfresh1|].
      intros c' H. discriminate H.
Qed.

(** C4. In one run of organize-files the folders that are created are added to
    the table of the owner, and no two of them have names that are equal
    under case-insensitive comparison, nor has any of them the name of a
    folder the owner already had: the lookup before each creation sees the
    folders created earlier in the run.  The report counts exactly them. *)
Theorem organizeFiles_no_duplicate_folders (w : World) :
  exists created : list Folder,
    folders (snd (organizeFiles env userId w)) = created ++ folders w
    /\ Forall (fun d => folder_user_id d = userId /\ is_ai_generated d = true) created
    /\ NoDup (map (fun d => toLowerCase (name d)) created)
    /\ (forall c d, In c created -> In d (folders w) ->
                    owned_by userId (folder_user_id d) = true ->
                    toLowerCase (name d) <> toLowerCase (name c))
    /\ (forall r, fst (organizeFiles env userId w) = Returned (Json r) ->
                  foldersCreated r = length created).
Proof.
  assert (Hempty : freshFolders userId (folders w) []).
  { repeat split; [constructor|constructor|intros c d []]. }
  unfold organizeFiles, try_catch, bind, getAllFiles, db_call, ret. cbn.
  destruct (db_error env (db_calls w)); cbn.
  - exists []. destruct Hempty as (H1 & H2 & H3). repeat split; try assumption.
    intros r H. discriminate H.
  - set (listed := {| files := files w; folders := folders w;
                      ai_calls := ai_calls w; db_calls := S (db_calls w) |}).
    destruct (loop_folders (folders w)
                (filter (fun r => owned_by userId (user_id r)) (files w))
                [] {| created := 0; moved := 0 |} listed eq_refl Hempty eq_refl)
      as (created & Hf & (H1 & H2 & H3) & Hcount).
    exists created.
    destruct (for_of _ _ _ listed) as [[c|] w2]; cbn [fst snd] in *.
    + repeat split; try assumption.
      intros r H. injection H as <-. cbn. exact (Hcount c eq_refl).
    + repeat split; try assumption. intros r H. discriminate H.
Qed.

End OrganizeFiles.

(** The run in which a folder is created for the first resume and the second
    one, whose tagging result suggests no folder, keeps its row. *)
Example organizeFiles_mixed_run :
  map name
      (folders (snd (organizeFiles Scenario.aiDownThenNoFolder "alice" Scenario.twoResumes)))
  = ["Resumes"]
  /\ files (snd (organizeFiles Scenario.aiDownThenNoFolder "alice" Scenario.twoResumes))
     = files Scenario.twoResumes
  /\ fst (organizeFiles Scenario.aiDownThenNoFolder "alice" Scenario.twoResumes)
     = Returned (Json {| success := true; foldersCreated := 1; filesMoved := 1 |}).
Proof. repeat split; vm_compute; reflexivity. Qed.

Lemma organizeFiles_keeps_unsuggested_file_witness :
  nth_error
    (files (snd (organizeFiles Scenario.aiDownThenNoFolder "alice" Scenario.twoResumes))) 1
  = Some (Scenario.upload "2" "resume_mary.pdf" "application/pdf" ["old"])
  /\ truthy (folder_id (Scenario.upload "2" "resume_mary.pdf" "application/pdf" ["old"]))
     = false.
Proof.
  apply (organizeFiles_keeps_unsuggested_file Scenario.aiDownThenNoFolder "alice"
           Scenario.twoResumes 1 1
           (Scenario.upload "2" "resume_mary.pdf" "application/pdf" ["old"])).
  - cbn. constructor; [intros [H|[]]; discriminate H|].
    constructor; [intros []|constructor].
  - vm_compute. reflexivity.
  - vm_compute. reflexivity.
  - vm_compute. reflexivity.
Defined.

(* ------------------------------------------------------------------------- *)
(** * Properties of the remaining storage operations                          *)
(* ------------------------------------------------------------------------- *)

Import StorageOps Handlers Bulk Cloud.

Section StorageOpsFacts.
Variable env : Oracle.

Lemma filter_selects_updated (ident userId : string) (u : FileUpdates) (rows : list File) :
  filter (selects ident userId)
         (map (fun f => if selects ident userId f then apply_updates u f else f) rows)
  = map (apply_updates u) (filter (selects ident userId) rows).
Proof.
  induction rows as [|f rows IH]; [reflexivity|].
  cbn [map filter]. destruct (selects ident userId f) eqn:Hs.
  - rewrite selects_apply_updates, Hs. cbn [map]. rewrite IH. reflexivity.
  - rewrite Hs. exact IH.
Qed.

Lemma filter_selects_idempotent (ident userId : string) (rows : list File) :
  filter (selects ident userId) (filter (selects ident userId) rows)
  = filter (selects ident userId) rows.
Proof.
  induction rows as [|f rows IH]; [reflexivity|].
  cbn [filter]. destruct (selects ident userId f) eqn:Hs; [|exact IH].
  cbn [filter]. rewrite Hs, IH. reflexivity.
Qed.

(** X1. Read your write: the row a successful [updateFile] returns is the row
    a following [getFile] for the same identity and owner returns.  An update
    that returns a row carried no [folderId] (the store refuses that key), so
    the row is a row of the old table with the folder reference it had, and
    with the tags of the update when the update has tags. *)
Theorem updateFile_then_getFile (ident userId : string) (u : FileUpdates)
        (w w' : World) (r : File) :
  updateFile env ident u userId w = (Returned (Some r), w') ->
  db_error env (db_calls w') = false ->
  fst (getFile env ident userId w') = Returned (Some r)
  /\ upd_folderId u = None
  /\ (forall t, upd_tags u = Some t -> file_tags r = t)
  /\ (exists f, In f (files w) /\ id f = ident /\ folder_id r = folder_id f).
Proof.
  intros Hupd Hok.
  pose proof (updateFile_returned env _ _ _ _ _ _ Hupd) as (_ & f & Hin & Hsel & Hr).
  unfold updateFile, db_call in Hupd.
  destruct (db_error env (db_calls w)); [discriminate|].
  unfold known_columns in Hupd.
  destruct (upd_folderId u) eqn:Hu; cbn [negb] in Hupd; [discriminate|].
  injection Hupd as Hsingle Hw. subst w'. cbn [files db_calls] in *.
  split.
  - unfold getFile, db_call. cbn [files db_calls]. rewrite Hok. cbn [fst].
    apply single_In in Hsingle. rewrite Hsingle. reflexivity.
  - split; [reflexivity|]. subst r. split.
    + intros t Ht. cbn. rewrite Ht. reflexivity.
    + exists f. split; [exact Hin|]. split; [exact (selects_id _ _ _ Hsel)|reflexivity].
Qed.

Lemma owned_other_not_selected (ident userId : string) (f : File) :
  truthy (Some userId) = true -> user_id f <> userId -> selects ident userId f = false.
Proof.
  intros Ht Hne. unfold selects, owned_by. rewrite Ht.
  destruct (String.eqb_spec (user_id f) userId) as [Heq|_]; [contradiction|].
  apply andb_false_r.
Qed.

Lemma updateFile_keeps_unselected (ident userId : string) (u : FileUpdates) (w : World)
      (i : nat) (f : File) :
  selects ident userId f = false ->
  nth_error (files w) i = Some f ->
  nth_error (files (snd (updateFile env ident u userId w))) i = Some f.
Proof.
  intros Hs Hrow. unfold updateFile, db_call.
  destruct (db_error env (db_calls w)); cbn; [exact Hrow|].
  destruct (known_columns u); cbn; [|exact Hrow].
  rewrite nth_error_map, Hrow. cbn. rewrite Hs. reflexivity.
Qed.

Lemma deleteFile_keeps_unselected (ident userId : string) (w : World) (f : File) :
  selects ident userId f = false ->
  In f (files w) ->
  In f (files (snd (deleteFile env ident userId w))).
Proof.
  intros Hs Hin. unfold deleteFile, db_call.
  destruct (db_error env (db_calls w)); cbn; [exact Hin|].
  apply filter_In. split; [exact Hin|]. rewrite Hs. reflexivity.
Qed.

(** X2. A write made for a user never touches a row of another user: whatever
    identity is asked for, [updateFile] leaves every row of the other users in
    its place and unchanged, and [deleteFile] keeps it in the table. *)
Theorem writes_are_scoped_by_owner (ident userId : string) (u : FileUpdates)
        (w : World) (i : nat) (f : File) :
  truthy (Some userId) = true ->
  nth_error (files w) i = Some f ->
  user_id f <> userId ->
  nth_error (files (snd (updateFile env ident u userId w))) i = Some f
  /\ In f (files (snd (deleteFile env ident userId w))).
Proof.
  intros Ht Hrow Hne.
  pose proof (owned_other_not_selected ident userId f Ht Hne) as Hs.
  split.
  - exact (updateFile_keeps_unselected _ _ _ _ _ _ Hs Hrow).
  - apply deleteFile_keeps_unselected; [exact Hs|].
    exact (nth_error_In _ _ Hrow).
Qed.

Lemma deleteFile_lookup (ident userId : string) (w : World) :
  db_error env (db_calls w) = false ->
  fst (getFile env ident userId (snd (deleteFile env ident userId w))) = Returned None.
Proof.
  intros Hok. unfold deleteFile, db_call. rewrite Hok. cbn [fst snd files].
  unfold getFile, db_call. cbn [files db_calls].
  destruct (db_error env (S (db_calls w))); [reflexivity|]. cbn [fst].
  replace (filter (selects ident userId)
             (filter (fun f => negb (selects ident userId f)) (files w))) with (@nil File);
    [reflexivity|].
  symmetry. induction (files w) as [|f l IH]; [reflexivity|].
  cbn [filter]. destruct (selects ident userId f) eqn:Hs; cbn [negb filter];
    [exact IH|]. rewrite Hs. exact IH.
Qed.

(** X3. [deleteFile] reports [true] whenever the store raises no error, also
    when no row carried the identity; afterwards a lookup of the identity for
    the same owner finds nothing, and every row that was not selected is still
    in the table, in the same order. *)
Theorem deleteFile_then_getFile (ident userId : string) (w : World) :
  db_error env (db_calls w) = false ->
  fst (deleteFile env ident userId w) = Returned true
  /\ fst (getFile env ident userId (snd (deleteFile env ident userId w))) = Returned None
  /\ files (snd (deleteFile env ident userId w))
     = filter (fun f => negb (selects ident userId f)) (files w)
  /\ ((forall f, In f (files w) -> selects ident userId f = false) ->
      files (snd (deleteFile env ident userId w)) = files w).
Proof.
  intros Hok. split; [|split; [exact (deleteFile_lookup ident userId w Hok)|]].
  { unfold deleteFile, db_call. rewrite Hok. reflexivity. }
  unfold deleteFile, db_call. rewrite Hok. cbn [fst snd files].
  split; [reflexivity|].
  - intros Hnone. induction (files w) as [|f l IH]; [reflexivity|].
    cbn [filter]. rewrite (Hnone f (or_introl eq_refl)). cbn [negb].
    f_equal. apply IH. intros g Hg. apply Hnone. right. exact Hg.
Qed.

(** X4. A created file is found again: [createFile] puts the new row at the
    head of the table, and when its identity is not yet in the table a
    following [getFile] for the owner returns exactly that row.  A falsy
    folder reference (absent or the empty string) is stored as no folder. *)
Theorem createFile_then_getFile (ins : InsertFile) (w w' : World) (r : File) :
  createFile env ins w = (Returned r, w') ->
  (forall f, In f (files w) -> id f <> id r) ->
  db_error env (db_calls w') = false ->
  fst (getFile env (id r) (ins_fileUserId ins) w') = Returned (Some r)
  /\ files w' = r :: files w
  /\ (truthy (ins_folderId ins) = false -> folder_id r = None).
Proof.
  intros Hc Hfresh Hok. unfold createFile, db_call in Hc.
  destruct (db_error env (db_calls w)); [discriminate|].
  injection Hc as <- <-. cbn [files db_calls id folder_id user_id] in *.
  split; [|split].
  - unfold getFile, db_call. cbn [files db_calls]. rewrite Hok. cbn [fst filter].
    unfold selects at 1. cbn [id user_id]. rewrite String.eqb_refl.
    replace (owned_by (ins_fileUserId ins) (ins_fileUserId ins)) with true.
    2:{ unfold owned_by. destruct (truthy _); [symmetry; apply String.eqb_refl|reflexivity]. }
    cbn [andb].
    replace (filter (selects (fresh_id env (db_calls w)) (ins_fileUserId ins)) (files w))
      with (@nil File); [reflexivity|].
    symmetry. clear -Hfresh. induction (files w) as [|f l IH]; [reflexivity|].
    cbn [filter]. unfold selects at 1.
    destruct (String.eqb_spec (id f) (fresh_id env (db_calls w))) as [Heq|_].
    + destruct (Hfresh f (or_introl eq_refl) Heq).
    + cbn [andb]. apply IH. intros g Hg. apply Hfresh. right. exact Hg.
  - reflexivity.
  - intros Hf. rewrite Hf. reflexivity.
Qed.

End StorageOpsFacts.

Lemma updateFile_then_getFile_witness :
  fst (getFile Scenario.aiDown "1" "alice"
         (snd (updateFile Scenario.aiDown "1"
                 {| upd_tags := Some ["paid"]; upd_folderId := None |} "alice" Cases.shared)))
  = Returned (Some (Scenario.upload "1" "Invoice_March.pdf" "application/pdf" ["paid"]))
  /\ upd_folderId {| upd_tags := Some ["paid"]; upd_folderId := None |} = None
  /\ (forall t, upd_tags {| upd_tags := Some ["paid"]; upd_folderId := None |} = Some t ->
                file_tags (Scenario.upload "1" "Invoice_March.pdf" "application/pdf" ["paid"]) = t)
  /\ (exists f, In f (files Cases.shared) /\ id f = "1"
                /\ folder_id (Scenario.upload "1" "Invoice_March.pdf" "application/pdf" ["paid"])
                   = folder_id f).
Proof.
  apply (updateFile_then_getFile Scenario.aiDown "1" "alice"
           {| upd_tags := Some ["paid"]; upd_folderId := None |} Cases.shared).
  - vm_compute. reflexivity.
  - vm_compute. reflexivity.
Defined.

Lemma writes_are_scoped_by_owner_witness :
  nth_error (files (snd (updateFile Scenario.aiDown "2"
                           {| upd_tags := Some ["mine"]; upd_folderId := None |}
                           "alice" Cases.shared))) 1
  = Some (Cases.bobsFile "2" "notes.txt" "text/plain" ["todo"])
  /\ In (Cases.bobsFile "2" "notes.txt" "text/plain" ["todo"])
        (files (snd (deleteFile Scenario.aiDown "2" "alice" Cases.shared))).
Proof.
  apply (writes_are_scoped_by_owner Scenario.aiDown "2" "alice"
           {| upd_tags := Some ["mine"]; upd_folderId := None |} Cases.shared 1).
  - reflexivity.
  - reflexivity.
  - discriminate.
Defined.

Lemma deleteFile_then_getFile_witness :
  fst (deleteFile Scenario.aiDown "2" "alice" Cases.shared) = Returned true
  /\ fst (getFile Scenario.aiDown "2" "alice"
            (snd (deleteFile Scenario.aiDown "2" "alice" Cases.shared))) = Returned None
  /\ files (snd (deleteFile Scenario.aiDown "2" "alice" Cases.shared))
     = filter (fun f => negb (selects "2" "alice" f)) (files Cases.shared)
  /\ ((forall f, In f (files Cases.shared) -> selects "2" "alice" f = false) ->
      files (snd (deleteFile Scenario.aiDown "2" "alice" Cases.shared)) = files Cases.shared).
Proof.
  apply (deleteFile_then_getFile Scenario.aiDown "2" "alice" Cases.shared). reflexivity.
Defined.

Lemma createFile_then_getFile_witness :
  exists r w',
    createFile Scenario.aiDown Cases.newNote Cases.shared = (Returned r, w')
    /\ fst (getFile Scenario.aiDown (id r) "alice" w') = Returned (Some r)
    /\ files w' = r :: files Cases.shared
    /\ (truthy (Some "") = false -> folder_id r = None).
Proof.
  eexists. eexists. split; [vm_compute; reflexivity|].
  apply (createFile_then_getFile Scenario.aiDown Cases.newNote Cases.shared).
  - vm_compute. reflexivity.
  - intros f Hin. cbn in Hin. destruct Hin as [<-|[<-|[<-|[]]]]; discriminate.
  - vm_compute. reflexivity.
Defined.

(* ------------------------------------------------------------------------- *)
(** * Properties of the search handler                                        *)
(* ------------------------------------------------------------------------- *)

Section Search.
Variable env : Oracle.

Lemma filter_filter {A} (p q : A -> bool) (l : list A) :
  filter p (filter q l) = filter (fun x => q x && p x) l.
Proof.
  induction l as [|x l IH]; [reflexivity|].
  cbn [filter]. destruct (q x); cbn [andb filter]; [|exact IH].
  destruct (p x); rewrite IH; reflexivity.
Qed.

Lemma filterWhen_keeps (p : QueryParam) (test : string -> File -> bool) (l : list File) :
  filterWhen p test l = filter (keeps p test) l.
Proof.
  unfold filterWhen, keeps. destruct (filtering p); [reflexivity|].
  induction l as [|x l IH]; [reflexivity|]. cbn [filter]. rewrite <- IH. reflexivity.
Qed.

Lemma search_returned (q tag type : QueryParam) (userId : string) (w w' : World)
      (l : list File) :
  search env q tag type userId w = (Returned (Json l), w') ->
  l = filterWhen type matchesType
        (filterWhen tag matchesTag
           (filterWhen q matchesQuery
              (filter (fun f => owned_by userId (user_id f)) (files w)))).
Proof.
  unfold search, try_catch, bind, getAllFiles, db_call, ret.
  destruct (db_error env (db_calls w)); cbn; intros H; [discriminate|].
  injection H as <- _. reflexivity.
Qed.

(** X5. The reply of the search is the table of the store filtered once, in
    table order, by the conjunction of: the row belongs to the caller, and
    each parameter that filters (a non-empty string) keeps the row.  So the
    three filters commute and never add a row. *)
Theorem search_is_one_filter (q tag type : QueryParam) (userId : string) (w w' : World)
        (l : list File) :
  search env q tag type userId w = (Returned (Json l), w') ->
  l = filter (fun f => owned_by userId (user_id f)
                       && keeps q matchesQuery f
                       && keeps tag matchesTag f
                       && keeps type matchesType f)
             (files w).
Proof.
  intros H. rewrite (search_returned _ _ _ _ _ _ _ H).
  rewrite !filterWhen_keeps, !filter_filter.
  apply filter_ext. intros f. rewrite !andb_assoc. reflexivity.
Qed.


Lemma toLowerCase_truthy (a b : string) :
  toLowerCase a = toLowerCase b -> truthy (Some a) = truthy (Some b).
Proof.
  destruct a, b; cbn; intros H; try reflexivity; discriminate H.
Qed.

Lemma filtering_lower (a b : string) (test : string -> File -> bool) :
  toLowerCase a = toLowerCase b ->
  (forall f, test a f = test b f) ->
  forall l, filterWhen (Text a) test l = filterWhen (Text b) test l.
Proof.
  intros Hl Ht l. unfold filterWhen, filtering.
  rewrite (toLowerCase_truthy a b Hl). destruct (truthy (Some b)); [|reflexivity].
  induction l as [|x l IH]; [reflexivity|]. cbn [filter]. rewrite Ht, IH. reflexivity.
Qed.

(** X7. The search ignores the case of its three texts: two requests whose
    texts are equal after lowercasing get the same reply. *)
Theorem search_ignores_case (q q' tag tag' type type' userId : string) (w : World) :
  toLowerCase q = toLowerCase q' ->
  toLowerCase tag = toLowerCase tag' ->
  toLowerCase type = toLowerCase type' ->
  search env (Text q) (Text tag) (Text type) userId w
  = search env (Text q') (Text tag') (Text type') userId w.
Proof.
  intros Hq Ht Hy. unfold search.
  assert (E : forall l,
             filterWhen (Text type) matchesType
               (filterWhen (Text tag) matchesTag (filterWhen (Text q) matchesQuery l))
             = filterWhen (Text type') matchesType
                 (filterWhen (Text tag') matchesTag (filterWhen (Text q') matchesQuery l))).
  { intros l.
    rewrite (filtering_lower q q' matchesQuery Hq).
    2:{ intros f. unfold matchesQuery. rewrite Hq. reflexivity. }
    rewrite (filtering_lower tag tag' matchesTag Ht).
    2:{ intros f. unfold matchesTag. rewrite Ht. reflexivity. }
    rewrite (filtering_lower type type' matchesType Hy).
    2:{ intros f. unfold matchesType. rewrite Hy. reflexivity. }
    reflexivity. }
  unfold try_catch, bind. destruct (getAllFiles env userId w) as [[l|] w1]; [|reflexivity].
  cbn. rewrite E. reflexivity.
Qed.

Lemma prefix_refl (s : string) : String.prefix s s = true.
Proof.
  induction s as [|c s IH]; [reflexivity|]. cbn.
  destruct (ascii_dec c c) as [_|Hn]; [exact IH|contradiction].
Qed.

Lemma includes_refl (s : string) : includes s s = true.
Proof. destruct s; cbn [includes]; rewrite prefix_refl; reflexivity. Qed.

Lemma tag_match_is_query_match (t : string) (f : File) :
  matchesTag t f = true -> matchesQuery t f = true.
Proof.
  unfold matchesTag, matchesQuery. intros H.
  apply existsb_exists in H. destruct H as (x & Hx & Heq).
  apply String.eqb_eq in Heq.
  assert (E : existsb (fun t0 => includes (toLowerCase t0) (toLowerCase t)) (file_tags f)
              = true).
  { apply existsb_exists. exists x. split; [exact Hx|]. rewrite Heq. apply includes_refl. }
  rewrite E. rewrite !orb_true_r. reflexivity.
Qed.

(** X8. The tag filter is the stricter one: every file the search returns for
    a text given as the tag (exact match of a tag, case ignored) is also
    returned when the same text is given as the free-text query (substring of
    the name, the display name or a tag). *)
Theorem search_by_tag_within_search_by_text (t userId : string) (w w1 w2 : World)
        (byTag byText : list File) :
  search env Absent (Text t) Absent userId w = (Returned (Json byTag), w1) ->
  search env (Text t) Absent Absent userId w = (Returned (Json byText), w2) ->
  forall f, In f byTag -> In f byText.
Proof.
  intros H1 H2 f Hin.
  rewrite (search_returned _ _ _ _ _ _ _ H1) in Hin.
  rewrite (search_returned _ _ _ _ _ _ _ H2).
  unfold filterWhen, filtering in *. cbn [filtering] in *.
  destruct (truthy (Some t)); [|exact Hin].
  apply filter_In in Hin. destruct Hin as [Hin Htag].
  apply filter_In. split; [exact Hin|]. apply tag_match_is_query_match. exact Htag.
Qed.

End Search.

Lemma search_is_one_filter_witness :
  exists l w',
    search Scenario.aiDown (Text "INVOICE") Absent (Text "pdf") "alice" Cases.shared
    = (Returned (Json l), w')
    /\ map id l = ["1"]
    /\ l = filter (fun f => owned_by "alice" (user_id f)
                            && keeps (Text "INVOICE") matchesQuery f
                            && keeps Absent matchesTag f
                            && keeps (Text "pdf") matchesType f)
                  (files Cases.shared).
Proof.
  eexists. eexists. split; [vm_compute; reflexivity|]. split; [reflexivity|].
  eapply (search_is_one_filter Scenario.aiDown (Text "INVOICE") Absent (Text "pdf") "alice"
            Cases.shared).
  vm_compute. reflexivity.
Defined.


Lemma search_ignores_case_witness :
  search Scenario.aiDown (Text "HoLiDaY") (Text "PHOTO") (Text "Image") "alice" Cases.shared
  = search Scenario.aiDown (Text "holiday") (Text "photo") (Text "image") "alice" Cases.shared.
Proof.
  apply (search_ignores_case Scenario.aiDown "HoLiDaY" "holiday" "PHOTO" "photo"
           "Image" "image" "alice" Cases.shared); reflexivity.
Defined.

Lemma search_by_tag_within_search_by_text_witness :
  In (Scenario.upload "1" "Invoice_March.pdf" "application/pdf" ["finance"; "2024"])
     [Scenario.upload "1" "Invoice_March.pdf" "application/pdf" ["finance"; "2024"]].
Proof.
  eapply (search_by_tag_within_search_by_text Scenario.aiDown "FINANCE" "alice" Cases.shared).
  - vm_compute. reflexivity.
  - vm_compute. reflexivity.
  - left. reflexivity.
Defined.

(* ------------------------------------------------------------------------- *)
(** * Properties of the usage, tag and folder handlers                        *)
(* ------------------------------------------------------------------------- *)

Section SmallHandlers.
Variable env : Oracle.

(** The owner and the size of a row: all the usage report reads. *)
Lemma usage_reads_owner_and_size (userId : string) :
  forall l1 l2 : list File,
    map (fun f => (user_id f, file_size f)) l1 = map (fun f => (user_id f, file_size f)) l2 ->
    forall acc,
      fold_left (fun acc file => (acc + or_zero (file_size file))%Z)
                (filter (fun f => owned_by userId (user_id f)) l1) acc
      = fold_left (fun acc file => (acc + or_zero (file_size file))%Z)
                  (filter (fun f => owned_by userId (user_id f)) l2) acc.
Proof.
  induction l1 as [|a l1 IH]; intros [|b l2] H acc; try discriminate; [reflexivity|].
  cbn [map] in H. injection H as Hu Hs Hrest.
  cbn [filter]. rewrite Hu. destruct (owned_by userId (user_id b)); cbn [fold_left].
  - rewrite Hs. apply IH. exact Hrest.
  - apply IH. exact Hrest.
Qed.

Lemma storageUsage_returned (userId : string) (w w' : World) (r : Usage) :
  storageUsage env userId w = (Returned (Json r), w') ->
  r = {| used := fold_left (fun acc file => (acc + or_zero (file_size file))%Z)
                           (filter (fun f => owned_by userId (user_id f)) (files w)) 0%Z;
         total := 1073741824 |}.
Proof.
  unfold storageUsage, try_catch, bind, getAllFiles, db_call, ret.
  destruct (db_error env (db_calls w)); cbn; intros H; [discriminate|].
  injection H as <- _. reflexivity.
Qed.

Lemma updateFile_keeps_owner_and_size (ident userId : string) (u : FileUpdates) (w : World) :
  map (fun f => (user_id f, file_size f)) (files (snd (updateFile env ident u userId w)))
  = map (fun f => (user_id f, file_size f)) (files w).
Proof.
  unfold updateFile, db_call. destruct (db_error env (db_calls w)); cbn; [reflexivity|].
  destruct (known_columns u); cbn; [|reflexivity].
  rewrite map_map. apply map_ext. intros f.
  destruct (selects ident userId f); reflexivity.
Qed.

Lemma organize_loop_keeps_owner_and_size (userId : string) :
  forall (l : list File) (c : Counters) (w1 : World),
    map (fun f => (user_id f, file_size f))
        (files (snd (for_of l (organizeOne env userId) c w1)))
    = map (fun f => (user_id f, file_size f)) (files w1).
Proof.
  induction l as [|g rest IH]; intros c w1; [reflexivity|].
  rewrite for_of_cons.
  assert (Hone : map (fun f => (user_id f, file_size f))
                     (files (snd (organizeOne env userId c g w1)))
                 = map (fun f => (user_id f, file_size f)) (files w1)).
  { destruct (organizeOne_shape env userId c g w1) as [[Hsame|[u Hmap]] _].
    - rewrite Hsame. reflexivity.
    - rewrite Hmap, map_map. apply map_ext. intros f.
      destruct (selects (id g) userId f); reflexivity. }
  destruct (fst (organizeOne env userId c g w1)) as [c'|]; [|exact Hone].
  rewrite IH. exact Hone.
Qed.

Lemma apply_loop_keeps_owner_and_size (userId : string) (src : File) :
  forall (l acc : list File) (w1 : World),
    map (fun f => (user_id f, file_size f))
        (files (snd (for_of l (applyTagsTo env userId src) acc w1)))
    = map (fun f => (user_id f, file_size f)) (files w1).
Proof.
  induction l as [|g rest IH]; intros acc w1; [reflexivity|].
  rewrite for_of_cons.
  assert (Hone : map (fun f => (user_id f, file_size f))
                     (files (snd (applyTagsTo env userId src acc g w1)))
                 = map (fun f => (user_id f, file_size f)) (files w1)).
  { pose proof (updateFile_keeps_owner_and_size (id g) userId
                  {| upd_tags := Some (file_tags src); upd_folderId := None |} w1) as H.
    unfold applyTagsTo, try_catch, bind, ret.
    destruct (updateFile env (id g) _ userId w1) as [[[u|]|] w2]; exact H. }
  destruct (fst (applyTagsTo env userId src acc g w1)) as [acc'|]; [|exact Hone].
  rewrite IH. exact Hone.
Qed.

Lemma applyToSimilar_keeps_owner_and_size (ident userId : string) (w : World) :
  map (fun f => (user_id f, file_size f)) (files (snd (applyToSimilar env ident userId w)))
  = map (fun f => (user_id f, file_size f)) (files w).
Proof.
  unfold applyToSimilar, try_catch, bind, getFile, getAllFiles, db_call, ret. cbn.
  destruct (db_error env (db_calls w)); cbn; [reflexivity|].
  destruct (single _) as [src|]; cbn; [|reflexivity].
  destruct (db_error env (S (db_calls w))); cbn; [reflexivity|].
  match goal with
  | |- context [for_of ?l ?b ?a ?w0] =>
      pose proof (apply_loop_keeps_owner_and_size userId src l a w0) as H;
      destruct (for_of l b a w0) as [[res|] w3]; exact H
  end.
Qed.

(** X9. Organizing and tag copying never change the reported usage: the
    storage-usage reply of a user is the same before and after a run of
    organize-files or of apply-to-similar, by any user and whatever fails in
    that run. *)
Theorem usage_survives_organizing (userId other ident : string) (w wa wb wc : World)
        (before afterOrganize afterApply : Usage) :
  storageUsage env userId w = (Returned (Json before), wa) ->
  storageUsage env userId (snd (organizeFiles env other w))
  = (Returned (Json afterOrganize), wb) ->
  storageUsage env userId (snd (applyToSimilar env ident other w))
  = (Returned (Json afterApply), wc) ->
  afterOrganize = before /\ afterApply = before /\ total before = (2 ^ 30)%Z.
Proof.
  intros H0 H1 H2.
  apply storageUsage_returned in H0, H1, H2. subst.
  split; [|split; [|reflexivity]]; f_equal; apply usage_reads_owner_and_size.
  - rewrite organizeFiles_world. cbv zeta.
    destruct (db_error env (db_calls w)); [reflexivity|].
    rewrite organize_loop_keeps_owner_and_size. reflexivity.
  - apply applyToSimilar_keeps_owner_and_size.
Qed.

(** X10. Replacing the tags of a file: a body without a tag array is refused
    with 400 and nothing is asked of the store; the handler itself never
    answers 500 and never throws, because [updateFile] turns a store error
    into [undefined], which the handler reports as 404 "File not found"; and a
    returned row carries exactly the requested tags, the requested identity
    and the caller as owner. *)
Theorem updateTags_replies (ident userId : string) (tags : option (list string)) (w : World) :
  (tags = None -> updateTags env ident tags userId w = (Returned (Status 400), w))
  /\ (tags <> None -> db_error env (db_calls w) = true ->
      fst (updateTags env ident tags userId w) = Returned (Status 404)
      /\ files (snd (updateTags env ident tags userId w)) = files w)
  /\ (forall u, fst (updateTags env ident tags userId w) = Returned (Json u) ->
                tags = Some (file_tags u) /\ id u = ident
                /\ owned_by userId (user_id u) = true)
  /\ fst (updateTags env ident tags userId w) <> Returned (Status 500)
  /\ fst (updateTags env ident tags userId w) <> Thrown.
Proof.
  destruct tags as [t|].
  - split; [discriminate|].
    unfold updateTags, try_catch, bind, ret.
    destruct (updateFile env ident {| upd_tags := Some t; upd_folderId := None |} userId w)
      as [[[u|]|] w2] eqn:Hupd; cbn [fst snd].
    + split; [|split; [|split; discriminate]].
      * intros _ Herr. unfold updateFile, db_call in Hupd. rewrite Herr in Hupd. discriminate.
      * intros u' H. injection H as <-.
        pose proof (updateFile_returned env _ _ _ _ _ _ Hupd) as (Hid & f & _ & Hsel & ->).
        split; [reflexivity|]. split; [exact Hid|].
        unfold selects in Hsel. apply andb_true_iff in Hsel. exact (proj2 Hsel).
    + split; [|split; [discriminate|split; discriminate]].
      intros _ Herr. split; [reflexivity|].
      unfold updateFile, db_call in Hupd. rewrite Herr in Hupd.
      injection Hupd as <-. reflexivity.
    + exfalso. exact (updateFile_never_throws env userId ident _ w
                        (f_equal fst Hupd)).
  - split; [reflexivity|]. split; [intros H; contradiction|].
    split; [discriminate|]. split; discriminate.
Qed.

(** X11. Creating a folder: the owner of the new folder is the authenticated
    caller whatever [userId] the body carries, the new row is put at the head
    of the folder table under the name of the body, and the next listing of
    the caller shows it first. *)
Theorem postFolder_owner_is_caller (body : FolderBody) (userId : string) (w w' : World)
        (d : Folder) :
  postFolder env body userId w = (Returned (Json d), w') ->
  db_error env (db_calls w') = false ->
  folder_user_id d = userId
  /\ body_name body = Given (name d)
  /\ folders w' = d :: folders w
  /\ (exists rest, fst (listFolders env userId w') = Returned (Json (d :: rest)))
  /\ (forall x, postFolder env {| body_name := body_name body;
                                  body_parentId := body_parentId body;
                                  body_userId := x;
                                  body_isAiGenerated := body_isAiGenerated body |} userId w
                = postFolder env body userId w).
Proof.
  intros H Hok. split; [|split; [|split; [|split]]].
  5:{ intros x. reflexivity. }
  all: unfold postFolder, try_catch, bind, ret in H;
    destruct (parseFolder body userId) as [ins|] eqn:Hp; [|discriminate];
    unfold createFolder, db_call in H;
    destruct (db_error env (db_calls w)); cbn in H; [discriminate|];
    injection H as <- <-; cbn [folder_user_id name folders db_calls] in *;
    unfold parseFolder in Hp;
    destruct (body_name body) as [|n|]; try discriminate;
    destruct (body_parentId body), (body_isAiGenerated body); try discriminate;
    injection Hp as <-; cbn.
  all: try reflexivity.
  all: unfold listFolders, try_catch, bind, getAllFolders, db_call, ret; cbn;
    rewrite Hok; cbn; rewrite owned_by_self; eexists; reflexivity.
Qed.

End SmallHandlers.

Lemma usage_survives_organizing_witness :
  {| used := 2048; total := 1073741824 |} = {| used := 2048; total := 1073741824 |}
  /\ {| used := 2048; total := 1073741824 |} = {| used := 2048; total := 1073741824 |}
  /\ total {| used := 2048; total := 1073741824 |} = (2 ^ 30)%Z.
Proof.
  eapply (usage_survives_organizing Scenario.aiDown "alice" "alice" "1" Cases.shared);
    vm_compute; reflexivity.
Defined.

(** The three replies of the tag handler on the shared store. *)
Example updateTags_three_replies :
  fst (updateTags Scenario.aiDown "1" None "alice" Cases.shared) = Returned (Status 400)
  /\ fst (updateTags Scenario.aiDown "2" (Some ["mine"]) "alice" Cases.shared)
     = Returned (Status 404)
  /\ fst (updateTags (Scenario.aiDownDbFailsAt 0) "1" (Some ["paid"]) "alice" Cases.shared)
     = Returned (Status 404)
  /\ fst (updateTags Scenario.aiDown "1" (Some ["paid"]) "alice" Cases.shared)
     = Returned (Json (Scenario.upload "1" "Invoice_March.pdf" "application/pdf" ["paid"])).
Proof. repeat split; vm_compute; reflexivity. Qed.

Lemma postFolder_owner_is_caller_witness :
  exists d w',
    postFolder Scenario.aiDown Cases.reportsBody "alice" Scenario.emptyStore
    = (Returned (Json d), w')
    /\ folder_user_id d = "alice"
    /\ body_name Cases.reportsBody = Given (name d)
    /\ folders w' = d :: folders Scenario.emptyStore
    /\ (exists rest, fst (listFolders Scenario.aiDown "alice" w') = Returned (Json (d :: rest)))
    /\ (forall x, postFolder Scenario.aiDown
                    {| body_name := body_name Cases.reportsBody;
                       body_parentId := body_parentId Cases.reportsBody;
                       body_userId := x;
                       body_isAiGenerated := body_isAiGenerated Cases.reportsBody |}
                    "alice" Scenario.emptyStore
                  = postFolder Scenario.aiDown Cases.reportsBody "alice" Scenario.emptyStore).
Proof.
  eexists. eexists. split; [vm_compute; reflexivity|].
  apply (postFolder_owner_is_caller Scenario.aiDown Cases.reportsBody "alice"
           Scenario.emptyStore).
  - vm_compute. reflexivity.
  - vm_compute. reflexivity.
Defined.

(* ------------------------------------------------------------------------- *)
(** * What a run of organize-files achieves                                   *)
(* ------------------------------------------------------------------------- *)

Section OrganizeAchieves.
Variable env : Oracle.
Variable userId : string.

(** No turn of the loop writes a file row: the one update of a turn names the
    folder under the key [folderId]. *)
Lemma organizeOne_keeps_files (c : Counters) (g : File) (w1 : World) :
  files (snd (organizeOne env userId c g w1)) = files w1.
Proof.
  unfold organizeOne, bind, generateFileTags, getAllFolders, createFolder, ret.
  destruct (truthy (folder_id g)); [reflexivity|].
  repeat (cbn -[generateFallbackTags owned_by selects updateFile];
          rewrite ?updateFile_unknown_column by reflexivity;
          match goal with
          | |- context [gemini env ?a ?b ?c] => destruct (gemini env a b c) eqn:?
          | |- context [db_error env ?n] => destruct (db_error env n) eqn:?
          | |- context [find ?p ?l] => destruct (find p l) eqn:?
          | |- context [suggestedFolderName ?t] => destruct (suggestedFolderName t) eqn:?
          | |- context [String.eqb ?s ""] => destruct (String.eqb s "") eqn:?
          end);
    cbn -[generateFallbackTags owned_by selects updateFile];
    rewrite ?updateFile_unknown_column by reflexivity; reflexivity.
Qed.

Lemma organize_loop_keeps_files :
  forall (l : list File) (c : Counters) (w1 : World),
    files (snd (for_of l (organizeOne env userId) c w1)) = files w1.
Proof.
  induction l as [|g rest IH]; intros c w1; [reflexivity|].
  rewrite for_of_cons.
  destruct (fst (organizeOne env userId c g w1)) as [c'|];
    [rewrite IH|]; apply organizeOne_keeps_files.
Qed.

Lemma organizeFiles_keeps_files (w : World) :
  files (snd (organizeFiles env userId w)) = files w.
Proof.
  rewrite organizeFiles_world. cbv zeta.
  destruct (db_error env (db_calls w)); [reflexivity|].
  rewrite organize_loop_keeps_files. reflexivity.
Qed.

Hypothesis store_up : forall n, db_error env n = false.

(** With a working store, the turn of an unfoldered file whose tagging result
    names a folder returns and counts one move. *)
Lemma organizeOne_moves (c : Counters) (g : File) (w1 : World) :
  truthy (folder_id g) = false ->
  truthy (suggestedFolderName (taggingAt env (ai_calls w1) g)) = true ->
  exists c', fst (organizeOne env userId c g w1) = Returned c' /\ moved c' = S (moved c).
Proof.
  intros Hg. unfold organizeOne, taggingAt. rewrite Hg. unfold truthy.
  unfold bind, generateFileTags, getAllFolders, createFolder, db_call, ret.
  repeat (cbn -[generateFallbackTags owned_by selects updateFile];
          rewrite ?store_up; rewrite ?updateFile_unknown_column by reflexivity;
          match goal with
          | |- context [gemini env ?a ?b ?c] => destruct (gemini env a b c) eqn:?
          | |- context [find ?p ?l] => destruct (find p l) eqn:?
          | |- context [suggestedFolderName ?t] => destruct (suggestedFolderName t) eqn:?
          | |- context [String.eqb ?s ""] => destruct (String.eqb s "") eqn:?
          end);
    cbn -[generateFallbackTags owned_by selects updateFile];
    rewrite ?store_up; rewrite ?updateFile_unknown_column by reflexivity;
    cbn -[generateFallbackTags owned_by selects];
    intros Hs; try discriminate Hs;
    eexists; split; reflexivity.
Qed.

Lemma organize_loop_moves :
  forall (l : list File) (c : Counters) (w1 : World),
    (forall g, In g l -> truthy (folder_id g) = false ->
               forall n, truthy (suggestedFolderName (taggingAt env n g)) = true) ->
    exists c', fst (for_of l (organizeOne env userId) c w1) = Returned c'
               /\ moved c' = moved c + length (unfoldered l).
Proof.
  induction l as [|g rest IH]; intros c w1 Htag.
  - cbn. exists c. split; [reflexivity|lia].
  - assert (Htag' : forall g', In g' rest -> truthy (folder_id g') = false ->
                               forall n, truthy (suggestedFolderName (taggingAt env n g')) = true).
    { intros g' Hg'. apply Htag. right. exact Hg'. }
    cbn [for_of]. unfold bind. unfold unfoldered. cbn [filter]. fold (unfoldered rest).
    destruct (truthy (folder_id g)) eqn:Hg; cbn [negb].
    + destruct (organizeOne_shape env userId c g w1) as (_ & Hskip & _).
      destruct (Hskip Hg) as [Hw Hout].
      destruct (organizeOne env userId c g w1) as [out w2]. cbn [fst snd] in *. subst.
      apply IH. exact Htag'.
    + destruct (organizeOne_moves c g w1 Hg (Htag g (or_introl eq_refl) Hg _))
        as (c' & Hout & Hmoved).
      destruct (organizeOne env userId c g w1) as [out w2]. cbn [fst snd] in *. subst out.
      destruct (IH c' w2 Htag') as (c'' & Hret & Hcount).
      exists c''. split; [exact Hret|].
      rewrite Hcount, Hmoved. cbn [length]. lia.
Qed.

(** X12. Organize-files writes no file row: the update of a turn names the
    folder under the key [folderId], the store refuses it, and the file table
    after a run is the one before.  So with a store that fails no call and a
    tagging result that names a folder for every unfoldered file, the report
    counts every unfoldered file of the caller as moved, while the listing of
    the root folder after the run still shows each of them. *)
Theorem organizeFiles_moves_nothing (w : World) :
  (forall n f, In f (files w) -> truthy (folder_id f) = false ->
               truthy (suggestedFolderName (taggingAt env n f)) = true) ->
  files (snd (organizeFiles env userId w)) = files w
  /\ (exists r, fst (organizeFiles env userId w) = Returned (Json r)
                /\ filesMoved r
                   = length (unfoldered (filter (fun f => owned_by userId (user_id f))
                                                (files w))))
  /\ fst (listFolderFiles env None userId (snd (organizeFiles env userId w)))
     = Returned (Json (filter (fun f => in_folder None f && owned_by userId (user_id f))
                              (files w))).
Proof.
  intros Htag.
  set (listed := {| files := files w; folders := folders w;
                    ai_calls := ai_calls w; db_calls := S (db_calls w) |}).
  destruct (organize_loop_moves
              (filter (fun f => owned_by userId (user_id f)) (files w))
              {| created := 0; moved := 0 |} listed) as (c' & Hret & Hcount).
  { intros g Hg Hun n. apply filter_In in Hg. apply Htag; [exact (proj1 Hg)|exact Hun]. }
  split; [apply organizeFiles_keeps_files|split].
  - unfold organizeFiles, try_catch, bind, getAllFiles, db_call, ret. cbn.
    rewrite store_up. cbn. fold listed.
    destruct (for_of _ _ _ listed) as [out w2]. cbn [fst] in Hret. subst out. cbn.
    eexists. split; [reflexivity|]. cbn. exact Hcount.
  - unfold listFolderFiles, try_catch, bind, getFilesByFolderId, db_call, ret. cbn.
    rewrite store_up. cbn. rewrite organizeFiles_keeps_files. reflexivity.
Qed.

End OrganizeAchieves.

Lemma organizeFiles_moves_nothing_witness :
  files (snd (organizeFiles Scenario.aiDown "alice" Scenario.twoResumes))
  = files Scenario.twoResumes
  /\ (exists r, fst (organizeFiles Scenario.aiDown "alice" Scenario.twoResumes)
                = Returned (Json r)
                /\ filesMoved r
                   = length (unfoldered (filter (fun f => owned_by "alice" (user_id f))
                                                (files Scenario.twoResumes))))
  /\ fst (listFolderFiles Scenario.aiDown None "alice"
            (snd (organizeFiles Scenario.aiDown "alice" Scenario.twoResumes)))
     = Returned (Json (filter (fun f => in_folder None f && owned_by "alice" (user_id f))
                              (files Scenario.twoResumes))).
Proof.
  apply (organizeFiles_moves_nothing Scenario.aiDown "alice").
  - intros n. reflexivity.
  - intros n f Hin _. cbn in Hin. destruct Hin as [<-|[<-|[]]]; vm_compute; reflexivity.
Defined.

(* ------------------------------------------------------------------------- *)
(** * Properties of batch tagging, the bearer token and the object path       *)
(* ------------------------------------------------------------------------- *)

Section Batch.
Variable env : Oracle.

Lemma allSettled_tags :
  forall (batch : list (string * string)) (w : World),
    fst (allSettled (map (fun file => generateFileTags env (fst file) (snd file)) batch) w)
    = Returned
        (map (fun p => Some (match gemini env (fst p) (fst (snd p)) (snd (snd p)) with
                             | Some data => data
                             | None => generateFallbackTags (fst (snd p)) (snd (snd p))
                             end))
             (combine (List.seq (ai_calls w) (length batch)) batch))
    /\ ai_calls (snd (allSettled (map (fun file => generateFileTags env (fst file) (snd file))
                                      batch) w))
       = ai_calls w + length batch
    /\ files (snd (allSettled (map (fun file => generateFileTags env (fst file) (snd file))
                                   batch) w))
       = files w.
Proof.
  induction batch as [|[n t] rest IH]; intros w.
  - cbn. repeat split. lia.
  - cbn [map allSettled length List.seq combine fst snd].
    rewrite (surjective_pairing (generateFileTags env n t w)).
    rewrite generateFileTags_returns. unfold bind.
    set (w1 := snd (generateFileTags env n t w)).
    assert (Hai : ai_calls w1 = S (ai_calls w)).
    { unfold w1, generateFileTags. destruct (gemini env (ai_calls w) n t); reflexivity. }
    assert (Hfiles : files w1 = files w).
    { unfold w1, generateFileTags. destruct (gemini env (ai_calls w) n t); reflexivity. }
    destruct (IH w1) as (H1 & H2 & H3).
    destruct (allSettled _ w1) as [[rs|] w2]; cbn [fst snd] in *; [|discriminate].
    injection H1 as ->. rewrite Hai in *. cbn. repeat split.
    + lia.
    + congruence.
Qed.

(** X13. Batch tagging answers for every file, in order: the result has one
    entry per file, the [k]-th entry is the reply of the [k]-th request or, when
    that request failed, the fallback for the [k]-th file; the placeholder for a
    rejected tagging is never used, because [generateFileTags] never rejects. *)
Theorem generateBulkTags_aligned (batch : list (string * string)) (w : World) :
  fst (generateBulkTags env batch w)
  = Returned
      (map (fun p => match gemini env (fst p) (fst (snd p)) (snd (snd p)) with
                     | Some data => data
                     | None => generateFallbackTags (fst (snd p)) (snd (snd p))
                     end)
           (combine (List.seq (ai_calls w) (length batch)) batch))
  /\ ai_calls (snd (generateBulkTags env batch w)) = ai_calls w + length batch
  /\ (forall r, fst (generateBulkTags env batch w) = Returned r -> length r = length batch).
Proof.
  destruct (allSettled_tags batch w) as (H1 & H2 & _).
  unfold generateBulkTags, bind, ret.
  destruct (allSettled _ w) as [[rs|] w2]; cbn [fst snd] in *; [|discriminate].
  injection H1 as ->. rewrite map_map. cbn.
  split; [reflexivity|]. split; [exact H2|].
  intros r H. injection H as <-. rewrite length_map, length_combine, length_seq. lia.
Qed.

End Batch.

Section Bearer.
Import Auth.

Lemma append_assoc (a b c : string) :
  ((a ++ b) ++ c)%string = (a ++ (b ++ c))%string.
Proof. induction a as [|x a IH]; cbn; [reflexivity|]. rewrite IH. reflexivity. Qed.

Lemma prefix_app (p s : string) :
  String.prefix p s = true -> exists r, s = (p ++ r)%string.
Proof.
  revert s. induction p as [|c p IH]; intros s H.
  - exists s. reflexivity.
  - destruct s as [|d s]; [discriminate|]. cbn in H.
    destruct (ascii_dec c d) as [->|]; [|discriminate].
    destruct (IH s H) as (r & ->). exists r. reflexivity.
Qed.

Lemma prefix_append (p r : string) : String.prefix p (p ++ r) = true.
Proof.
  induction p as [|c p IH]; [destruct r; reflexivity|]. cbn.
  destruct (ascii_dec c c) as [_|Hn]; [exact IH|contradiction].
Qed.

(** The first piece of a split holds no separator, and the text is that piece
    alone or that piece, a separator and a rest. *)
Lemma split_first (c : ascii) (s : string) :
  exists t ts,
    split c s = t :: ts
    /\ includes t (String c "") = false
    /\ (s = t \/ exists rest, s = (t ++ String c rest)%string).
Proof.
  induction s as [|d r (t & ts & Hs & Ht & Hr)].
  - exists ""%string, []. repeat split. left. reflexivity.
  - cbn [split]. destruct (Ascii.eqb_spec d c) as [->|Hne].
    + exists ""%string, (split c r). repeat split. right. exists r. reflexivity.
    + rewrite Hs. exists (String d t), ts. split; [reflexivity|]. split.
      * rewrite includes_char, Ht.
        destruct (Ascii.eqb_spec d c); [contradiction|reflexivity].
      * destruct Hr as [->|(rest & ->)]; [left; reflexivity|].
        right. exists rest. reflexivity.
Qed.

Lemma bearerToken_of_header (r : string) :
  bearerToken ("Bearer " ++ r) = hd_error (split " " r).
Proof.
  unfold bearerToken.
  change ("Bearer " ++ r)%string with ("Bearer" ++ String " " r)%string.
  rewrite split_app_sep. reflexivity.
Qed.

(** X14. The middleware lets a request through only with a verified token:
    when it calls [next()], the header starts with ["Bearer "], the access
    token is the text between that prefix and the next blank (or the end), it
    holds no blank, the identity provider named the user for exactly that
    token, and whatever follows a second blank was ignored. *)
Theorem authenticateUser_sound (getUser : option string -> Verdict)
        (authorization : option string) (userId : string) (accessToken : option string) :
  authenticateUser getUser authorization = Next userId accessToken ->
  exists t,
    accessToken = Some t
    /\ includes t " " = false
    /\ getUser (Some t) = UserIs userId
    /\ (authorization = Some ("Bearer " ++ t)%string
        \/ exists rest, authorization = Some ("Bearer " ++ t ++ String " " rest)%string).
Proof.
  unfold authenticateUser. destruct authorization as [h|]; [|discriminate].
  destruct (truthy (Some h)); cbn [negb orb]; [|discriminate].
  destruct (String.prefix "Bearer " h) eqn:Hp; cbn [negb]; [|discriminate].
  destruct (prefix_app _ _ Hp) as (r & ->).
  rewrite bearerToken_of_header.
  destruct (split_first " " r) as (t & ts & Hs & Ht & Hr). rewrite Hs. cbn [hd_error].
  destruct (getUser (Some t)) eqn:Hv; intros H; try discriminate.
  injection H as <- <-. exists t. repeat split; try assumption.
  destruct Hr as [->|(rest & ->)]; [left; reflexivity|right; exists rest; reflexivity].
Qed.

(** X15. And conversely: a header made of ["Bearer "], a token without blank
    that the identity provider accepts and, possibly, a blank and anything
    else, passes with the user of the token and that token as access token. *)
Theorem authenticateUser_accepts (getUser : option string -> Verdict)
        (t rest userId : string) :
  includes t " " = false ->
  getUser (Some t) = UserIs userId ->
  authenticateUser getUser (Some ("Bearer " ++ t)%string) = Next userId (Some t)
  /\ authenticateUser getUser (Some ("Bearer " ++ t ++ String " " rest)%string)
     = Next userId (Some t).
Proof.
  intros Ht Hv. unfold authenticateUser.
  split.
  - rewrite prefix_append.
    change (truthy (Some ("Bearer " ++ t)%string)) with true. cbn [negb orb].
    rewrite bearerToken_of_header, (split_no_sep " " t Ht). cbn [hd_error].
    rewrite Hv. reflexivity.
  - rewrite prefix_append.
    change (truthy (Some ("Bearer " ++ t ++ String " " rest)%string)) with true.
    cbn [negb orb].
    rewrite bearerToken_of_header, split_app_sep, (split_no_sep " " t Ht).
    cbn [hd_error app]. rewrite Hv. reflexivity.
Qed.

Lemma last_piece_no_sep (c : ascii) (s : string) :
  exists e, pop (split c s) = Some e /\ includes e (String c "") = false.
Proof.
  destruct (includes s (String c "")) eqn:Hin.
  - destruct (pop (split c s)) as [e|] eqn:Hp.
    + destruct (pop_split_decompose c s e Hin Hp) as (_ & _ & He). exists e. split; auto.
    + exfalso. pose proof (split_nonempty c s) as Hne. clear Hin.
      induction (split c s) as [|x l IH]; [contradiction|].
      destruct l as [|y l]; [discriminate|]. apply IH; [exact Hp|discriminate].
  - rewrite (split_no_sep c s Hin). exists s. split; [reflexivity|exact Hin].
Qed.

(** X16. The path of a stored object keeps the extension of the uploaded name:
    the text after the last dot of the path is the text after the last dot of
    the file name (the whole name when it has no dot), and the path lies under
    ["uploads/"]. *)
Theorem uploadPath_keeps_extension (fileId fileName : string) :
  pop (split "." (Cloud.uploadPath fileId fileName)) = pop (split "." fileName)
  /\ String.prefix "uploads/" (Cloud.uploadPath fileId fileName) = true.
Proof.
  split; [|apply prefix_append].
  unfold Cloud.uploadPath.
  destruct (last_piece_no_sep "." fileName) as (e & -> & He).
  rewrite <- (append_assoc "uploads/" fileId ("." ++ e)).
  change ("." ++ e)%string with (String "." e).
  rewrite split_app_sep, pop_app, (split_no_sep "." e He). reflexivity.
Qed.

End Bearer.

Lemma authenticateUser_sound_witness :
  exists t,
    Some "tok123" = Some t
    /\ includes t " " = false
    /\ Cases.provider (Some t) = Auth.UserIs "alice"
    /\ (Some "Bearer tok123 and more" = Some ("Bearer " ++ t)%string
        \/ exists rest, Some "Bearer tok123 and more"
                        = Some ("Bearer " ++ t ++ String " " rest)%string).
Proof.
  apply (authenticateUser_sound Cases.provider (Some "Bearer tok123 and more") "alice"
           (Some "tok123")).
  vm_compute. reflexivity.
Defined.

Lemma authenticateUser_accepts_witness :
  Auth.authenticateUser Cases.provider (Some "Bearer tok123") = Auth.Next "alice" (Some "tok123")
  /\ Auth.authenticateUser Cases.provider (Some "Bearer tok123 and more")
     = Auth.Next "alice" (Some "tok123").
Proof.
  apply (authenticateUser_accepts Cases.provider "tok123" "and more" "alice");
    vm_compute; reflexivity.
Defined.

(** What the middleware answers to requests that do not pass. *)
Example authenticateUser_refusals :
  Auth.authenticateUser Cases.provider None = Auth.Answer 401
  /\ Auth.authenticateUser Cases.provider (Some "bearer tok123") = Auth.Answer 401
  /\ Auth.authenticateUser Cases.provider (Some "Bearer  tok123") = Auth.Answer 401
  /\ Auth.authenticateUser (fun _ => Auth.Crashed) (Some "Bearer tok123") = Auth.Answer 500.
Proof. repeat split; vm_compute; reflexivity. Qed.

(* ------------------------------------------------------------------------- *)
(** * Properties of the upload and delete handlers                            *)
(* ------------------------------------------------------------------------- *)

Section Uploads.
Variable env : Oracle.
Variable cloud : BucketOracle.
Variable userId : string.

Local Ltac crunchC :=
  unfold storeUpload, bindC, retC, lift, uploadFile, generateFileTags, getAllFolders,
    createFolder, createFile, db_call, bind, ret;
  repeat (cbn -[generateFallbackTags owned_by uploadPath existsb truthy];
          match goal with
          | |- context [bucket_error cloud ?n || ?e] =>
              destruct (bucket_error cloud n || e) eqn:?
          | |- context [gemini env ?a ?b ?c] => destruct (gemini env a b c) eqn:?
          | |- context [db_error env ?n] => destruct (db_error env n) eqn:?
          | |- context [find ?p ?l] => destruct (find p l) eqn:?
          | |- context [suggestedFolderName ?t] => destruct (suggestedFolderName t) eqn:?
          | |- context [truthy ?x] => destruct (truthy x) eqn:?
          end);
  cbn -[generateFallbackTags owned_by uploadPath existsb truthy].

(** What the processing of one uploaded file leaves behind. *)
Lemma storeUpload_row (folderId : option string) (file : Upload) (c : Platform) (r : File) :
  fst (storeUpload env cloud folderId userId file c) = Returned r ->
  user_id r = userId /\ ai_generated r = true
  /\ original_name r = originalname file /\ file_type r = mimetype file
  /\ file_size r = size file
  /\ storage_path r = uploadPath (randomUUID cloud (bucket_calls c)) (originalname file)
  /\ bucket (snd (storeUpload env cloud folderId userId file c))
     = storage_path r :: bucket c
  /\ files (store (snd (storeUpload env cloud folderId userId file c)))
     = r :: files (store c).
Proof.
  crunchC; intros H; first [discriminate H | injection H as <-; cbn; repeat split].
Qed.

Lemma storeUpload_bucket (folderId : option string) (file : Upload) (c : Platform) :
  (bucket (snd (storeUpload env cloud folderId userId file c)) = bucket c
   \/ bucket (snd (storeUpload env cloud folderId userId file c))
      = uploadPath (randomUUID cloud (bucket_calls c)) (originalname file) :: bucket c)
  /\ (fst (storeUpload env cloud folderId userId file c) = Thrown ->
      files (store (snd (storeUpload env cloud folderId userId file c))) = files (store c)).
Proof.
  split.
  - crunchC; first [left; reflexivity | right; reflexivity].
  - crunchC; intros H; first [discriminate H | reflexivity].
Qed.

Lemma storeUpload_thrown_after_upload (folderId : option string) (file : Upload)
      (c : Platform) :
  fst (storeUpload env cloud folderId userId file c) = Thrown ->
  bucket_error cloud (bucket_calls c)
  || existsb (String.eqb (uploadPath (randomUUID cloud (bucket_calls c)) (originalname file)))
             (bucket c) = false ->
  bucket (snd (storeUpload env cloud folderId userId file c))
  = uploadPath (randomUUID cloud (bucket_calls c)) (originalname file) :: bucket c.
Proof.
  crunchC; intros H Hup; first [discriminate H | discriminate Hup | reflexivity].
Qed.

Lemma storeUpload_given_folder (folderId : option string) (file : Upload) (c : Platform) :
  truthy folderId = true ->
  folders (store (snd (storeUpload env cloud folderId userId file c))) = folders (store c)
  /\ (forall r, fst (storeUpload env cloud folderId userId file c) = Returned r ->
                folder_id r = folderId).
Proof.
  intros Hf. split.
  - revert Hf. crunchC; intros Hf; first [reflexivity | discriminate Hf | congruence].
  - revert Hf. crunchC; intros Hf r H;
      first [discriminate H | discriminate Hf | congruence
            | injection H as <-; cbn; reflexivity
            | injection H as <-; cbn; congruence].
Qed.

Lemma storeUpload_folders (before created : list Folder) (folderId : option string)
      (file : Upload) (c : Platform) :
  folders (store c) = created ++ before ->
  freshFolders userId before created ->
  exists created',
    folders (store (snd (storeUpload env cloud folderId userId file c))) = created' ++ before
    /\ freshFolders userId before created'.
Proof.
  intros Hf Hfresh.
  crunchC; try (exists created; split; [exact Hf|exact Hfresh]).
  all: rewrite Hf in *.
  all: eexists (_ :: created); split; [reflexivity|];
    apply freshFolders_add; eassumption.
Qed.

Local Notation "'turn' folderId" :=
  (fun (uploadedFiles : list File) (file : Upload) =>
     tryC (bindC (storeUpload env cloud folderId userId file)
                 (fun createdFile => retC (uploadedFiles ++ [createdFile])))
          (retC uploadedFiles))
  (at level 10, folderId at level 9, only parsing).

(** One turn of the loop of upload-multiple never throws: it goes on with the
    list extended by the created row, or with the list as it was. *)
Lemma upload_loop_cons (folderId : option string) (file : Upload) (rest : list Upload)
      (acc : list File) (c : Platform) :
  for_ofC (file :: rest) (turn folderId) acc c
  = for_ofC rest (turn folderId)
            (match fst (storeUpload env cloud folderId userId file c) with
             | Returned r => acc ++ [r]
             | Thrown => acc
             end)
            (snd (storeUpload env cloud folderId userId file c)).
Proof.
  cbn [for_ofC]. unfold bindC at 1. unfold tryC, bindC, retC.
  destruct (storeUpload env cloud folderId userId file c) as [[r|] c']; reflexivity.
Qed.

Lemma upload_loop (folderId : option string) (request : list Upload) :
  forall (l : list Upload) (acc : list File) (c : Platform),
    (forall file, In file l -> In file request) ->
    (forall r, In r acc ->
               user_id r = userId /\ ai_generated r = true
               /\ In (storage_path r) (bucket c)
               /\ exists file, In file request /\ original_name r = originalname file
                               /\ file_type r = mimetype file /\ file_size r = size file) ->
    exists uploaded,
      fst (for_ofC l (turn folderId) acc c) = Returned uploaded
      /\ length uploaded <= length acc + length l
      /\ (forall r, In r uploaded ->
                    user_id r = userId /\ ai_generated r = true
                    /\ In (storage_path r) (bucket (snd (for_ofC l (turn folderId) acc c)))
                    /\ exists file, In file request /\ original_name r = originalname file
                                    /\ file_type r = mimetype file /\ file_size r = size file).
Proof.
  induction l as [|file rest IH]; intros acc c Hsub Hacc.
  - exists acc. cbn. split; [reflexivity|]. split; [lia|exact Hacc].
  - rewrite upload_loop_cons.
    destruct (storeUpload_bucket folderId file c) as [Hb _].
    assert (Hmono : forall p, In p (bucket c) ->
                              In p (bucket (snd (storeUpload env cloud folderId userId file c)))).
    { intros p Hp. destruct Hb as [-> | ->]; [exact Hp|right; exact Hp]. }
    pose proof (storeUpload_row folderId file c) as Hrow.
    destruct (fst (storeUpload env cloud folderId userId file c)) as [r|].
    + destruct (Hrow r eq_refl) as (H1 & H2 & H3 & H4 & H5 & _ & H7 & _).
      destruct (IH (acc ++ [r]) (snd (storeUpload env cloud folderId userId file c)))
        as (uploaded & Hret & Hlen & Hall).
      * intros f Hf. apply Hsub. right. exact Hf.
      * intros r' Hr'. apply in_app_or in Hr'. destruct Hr' as [Hr'|[<-|[]]].
        -- destruct (Hacc r' Hr') as (A & B & C0 & D). repeat split; auto.
        -- repeat split; auto.
           ++ rewrite H7. left. reflexivity.
           ++ exists file. repeat split; auto. apply Hsub. left. reflexivity.
      * exists uploaded. split; [exact Hret|]. split; [|exact Hall].
        rewrite length_app in Hlen. cbn [length] in *. lia.
    + destruct (IH acc (snd (storeUpload env cloud folderId userId file c)))
        as (uploaded & Hret & Hlen & Hall).
      * intros f Hf. apply Hsub. right. exact Hf.
      * intros r' Hr'. destruct (Hacc r' Hr') as (A & B & C0 & D). repeat split; auto.
      * exists uploaded. split; [exact Hret|]. split; [|exact Hall].
        cbn [length]. lia.
Qed.


(** A request beyond the limits of the middleware is answered 500 and nothing
    is stored. *)
Lemma uploadMultiple_beyond_limits (request : list Upload) (folderId : option string)
      (c : Platform) :
  upload_array 10 request = false ->
  uploadMultiple env cloud (Some request) folderId userId c = (Returned (Status 500), c).
Proof.
  intros Ha. unfold uploadMultiple. rewrite Ha. reflexivity.
Qed.

Lemma uploadMultiple_loop (request : list Upload) (folderId : option string)
      (c : Platform) (uploaded : list File) :
  upload_array 10 request = true ->
  fst (for_ofC request (turn folderId) [] c) = Returned uploaded ->
  uploadMultiple env cloud (Some request) folderId userId c
  = (Returned (Json uploaded), snd (for_ofC request (turn folderId) [] c)).
Proof.
  intros Ha H. unfold uploadMultiple. rewrite Ha. unfold tryC at 1. unfold bindC at 1.
  destruct (for_ofC request _ [] c) as [out c1]. cbn [fst snd] in *. subst out.
  reflexivity.
Qed.


(** The paths drawn for the files of a request whose first upload is the call
    of the bucket numbered [n]. *)
Local Notation "'drawn' n request" :=
  (map (fun p => uploadPath (randomUUID cloud (fst p)) (originalname (snd p)))
       (combine (List.seq n (length request)) request))
  (at level 10, n at level 9, request at level 9, only parsing).



(** X18. An upload into a folder the request names ignores the suggestion of
    the tagging service: no folder is created or looked up, and the stored row
    refers to the named folder. *)
Theorem upload_into_named_folder (file : Upload) (folderId : option string)
        (c c' : Platform) (r : File) :
  truthy folderId = true ->
  upload env cloud (Some file) folderId userId c = (Returned (Json r), c') ->
  folder_id r = folderId
  /\ folders (store c') = folders (store c)
  /\ files (store c') = r :: files (store c).
Proof.
  intros Hf H. unfold upload, tryC in H. unfold bindC at 1 in H.
  destruct (storeUpload_given_folder folderId file c Hf) as [Hfolders Hrow].
  pose proof (storeUpload_row folderId file c) as Hr.
  destruct (storeUpload env cloud folderId userId file c) as [[r0|] c0]; cbn in H;
    [|discriminate].
  injection H as <- <-. cbn [fst snd] in *.
  destruct (Hr r0 eq_refl) as (_ & _ & _ & _ & _ & _ & _ & Hfiles).
  split; [exact (Hrow r0 eq_refl)|]. split; [exact Hfolders|exact Hfiles].
Qed.

(** X19. No clean-up after a failed upload: when the single-upload handler
    answers 500 although the bucket took the object, the object stays in the
    bucket and no row refers to it, the file table being as before. *)
Theorem upload_failure_leaves_object (file : Upload) (folderId : option string)
        (c c' : Platform) :
  upload env cloud (Some file) folderId userId c = (Returned (Status 500), c') ->
  bucket_error cloud (bucket_calls c)
  || existsb (String.eqb (uploadPath (randomUUID cloud (bucket_calls c)) (originalname file)))
             (bucket c) = false ->
  bucket c' = uploadPath (randomUUID cloud (bucket_calls c)) (originalname file) :: bucket c
  /\ files (store c') = files (store c).
Proof.
  intros H Hup. unfold upload, tryC in H. unfold bindC at 1 in H.
  pose proof (storeUpload_thrown_after_upload folderId file c) as Ht.
  destruct (storeUpload_bucket folderId file c) as [_ Hfiles].
  destruct (storeUpload env cloud folderId userId file c) as [[r0|] c0]; cbn in H;
    [discriminate|].
  injection H as <-. cbn [fst snd] in *.
  split; [exact (Ht eq_refl Hup)|exact (Hfiles eq_refl)].
Qed.

Lemma upload_loop_folders (folderId : option string) (before : list Folder) :
  forall (l : list Upload) (created : list Folder) (acc : list File) (c : Platform),
    folders (store c) = created ++ before ->
    freshFolders userId before created ->
    exists created',
      folders (store (snd (for_ofC l (turn folderId) acc c))) = created' ++ before
      /\ freshFolders userId before created'.
Proof.
  induction l as [|file rest IH]; intros created acc c Hf Hfresh.
  - exists created. split; [exact Hf|exact Hfresh].
  - rewrite upload_loop_cons.
    destruct (storeUpload_folders before created folderId file c Hf Hfresh)
      as (created1 & Hf1 & Hfresh1).
    exact (IH created1 _ _ Hf1 Hfresh1).
Qed.

(** X20. Upload-multiple keeps the folder rule of organize-files: the folders
    created while one request is processed belong to the caller, have pairwise
    different names under case-insensitive comparison and differ, compared
    that way, from every folder the caller already had. *)
Theorem uploadMultiple_no_duplicate_folders (request : list Upload)
        (folderId : option string) (c : Platform) :
  exists created : list Folder,
    folders (store (snd (uploadMultiple env cloud (Some request) folderId userId c)))
    = created ++ folders (store c)
    /\ Forall (fun d => folder_user_id d = userId /\ is_ai_generated d = true) created
    /\ NoDup (map (fun d => toLowerCase (name d)) created)
    /\ (forall x d, In x created -> In d (folders (store c)) ->
                    owned_by userId (folder_user_id d) = true ->
                    toLowerCase (name d) <> toLowerCase (name x)).
Proof.
  assert (Hempty : freshFolders userId (folders (store c)) []).
  { repeat split; [constructor|constructor|intros x d []]. }
  destruct (upload_loop_folders folderId (folders (store c)) request [] [] c eq_refl Hempty)
    as (created & Hf & (H1 & H2 & H3)).
  destruct (upload_array 10 request) eqn:Ha.
  - destruct (upload_loop folderId request request [] c) as (uploaded & Hret & _).
    { intros f Hf0. exact Hf0. }
    { intros r []. }
    exists created. rewrite (uploadMultiple_loop request folderId c uploaded Ha Hret).
    cbn [snd]. repeat split; assumption.
  - exists []. rewrite (uploadMultiple_beyond_limits request folderId c Ha).
    cbn [snd app]. destruct Hempty as (E1 & E2 & E3). repeat split; assumption.
Qed.

(** X21. The delete handler answers [{ success: true }] exactly when the
    lookup finds the file, whatever the two deletions do: it never answers 500,
    a file that is not found gives 404 and leaves table and bucket as they
    are, and when both the bucket and the store refuse to delete, the reply is
    still success with the row and every object in place. *)
Theorem deleteRoute_replies (ident : string) (c : Platform) :
  (forall f, fst (getFile env ident userId (store c)) = Returned (Some f) ->
             fst (deleteRoute env cloud ident userId c) = Returned (Json true)
             /\ (bucket_error cloud (bucket_calls c) = true ->
                 db_error env (S (db_calls (store c))) = true ->
                 files (store (snd (deleteRoute env cloud ident userId c))) = files (store c)
                 /\ bucket (snd (deleteRoute env cloud ident userId c)) = bucket c))
  /\ (fst (getFile env ident userId (store c)) = Returned None ->
      fst (deleteRoute env cloud ident userId c) = Returned (Status 404)
      /\ files (store (snd (deleteRoute env cloud ident userId c))) = files (store c)
      /\ bucket (snd (deleteRoute env cloud ident userId c)) = bucket c)
  /\ fst (deleteRoute env cloud ident userId c) <> Returned (Status 500).
Proof.
  unfold deleteRoute, tryC, bindC, retC, lift, removeObject, getFile, deleteFile, db_call.
  cbn. destruct (db_error env (db_calls (store c))); cbn.
  - split; [intros f H; discriminate H|]. split; [|discriminate].
    intros _. repeat split.
  - destruct (single _) as [f|]; cbn.
    + split; [|split; [intros H; discriminate H|]].
      * intros f0 _.
        destruct (bucket_error cloud (bucket_calls c)); cbn;
          destruct (db_error env (S (db_calls (store c)))); cbn;
          split; try reflexivity; intros H1 H2; try discriminate; split; reflexivity.
      * destruct (bucket_error cloud (bucket_calls c)); cbn;
          destruct (db_error env (S (db_calls (store c)))); cbn; discriminate.
    + split; [intros f H; discriminate H|]. split; [|discriminate].
      intros _. repeat split.
Qed.

(** X22. When the lookup finds the file and neither the bucket nor the store
    fails, the delete handler removes both: the object of the file is no
    longer in the bucket, a new lookup of the identity finds nothing, and the
    other rows and the other objects are kept in order. *)
Theorem deleteRoute_removes (ident : string) (c : Platform) (f : File) :
  fst (getFile env ident userId (store c)) = Returned (Some f) ->
  bucket_error cloud (bucket_calls c) = false ->
  db_error env (S (db_calls (store c))) = false ->
  ~ In (storage_path f) (bucket (snd (deleteRoute env cloud ident userId c)))
  /\ bucket (snd (deleteRoute env cloud ident userId c))
     = filter (fun p => negb (String.eqb p (storage_path f))) (bucket c)
  /\ files (store (snd (deleteRoute env cloud ident userId c)))
     = filter (fun r => negb (selects ident userId r)) (files (store c))
  /\ fst (getFile env ident userId (store (snd (deleteRoute env cloud ident userId c))))
     = Returned None.
Proof.
  intros Hget Hb Hd.
  assert (Hfirst : db_error env (db_calls (store c)) = false).
  { unfold getFile, db_call in Hget.
    destruct (db_error env (db_calls (store c))); [discriminate|reflexivity]. }
  pose proof (deleteFile_lookup env ident userId
                {| files := files (store c); folders := folders (store c);
                   ai_calls := ai_calls (store c); db_calls := S (db_calls (store c)) |} Hd)
    as Hlookup.
  revert Hget Hlookup.
  unfold deleteRoute, tryC, bindC, retC, lift, removeObject, getFile, deleteFile, db_call.
  cbn. rewrite Hfirst. cbn.
  destruct (single _) as [f0|]; cbn; intros Hget; [|discriminate].
  injection Hget as ->. rewrite Hb. cbn. rewrite Hd. cbn. intros Hlookup.
  split; [|split; [reflexivity|split; [reflexivity|exact Hlookup]]].
  intros Hin. apply filter_In in Hin. destruct Hin as [_ Hne].
  rewrite String.eqb_refl in Hne. discriminate.
Qed.

End Uploads.

Lemma upload_into_named_folder_witness :
  exists r c',
    upload Scenario.aiDown Cases.bucketUp (Some Cases.resumePdf) (Some "folder-9") "alice"
           (Cases.platform Scenario.emptyStore) = (Returned (Json r), c')
    /\ suggestedFolderName (generateFallbackTags "resume_john.pdf" "application/pdf")
       = Some "Resumes"
    /\ folder_id r = Some "folder-9"
    /\ folders (store c') = folders (store (Cases.platform Scenario.emptyStore))
    /\ files (store c') = r :: files (store (Cases.platform Scenario.emptyStore)).
Proof.
  eexists. eexists. split; [vm_compute; reflexivity|]. split; [vm_compute; reflexivity|].
  apply (upload_into_named_folder Scenario.aiDown Cases.bucketUp "alice" Cases.resumePdf
           (Some "folder-9") (Cases.platform Scenario.emptyStore)).
  - reflexivity.
  - vm_compute. reflexivity.
Defined.

Lemma upload_failure_leaves_object_witness :
  exists c',
    upload (Scenario.aiDownDbFailsAt 2) Cases.bucketUp (Some Cases.resumePdf) None "alice"
           (Cases.platform Scenario.emptyStore) = (Returned (Status 500), c')
    /\ bucket c' = ["uploads/uuid-0.pdf"]
    /\ bucket c' = uploadPath (randomUUID Cases.bucketUp 0) (originalname Cases.resumePdf)
                   :: bucket (Cases.platform Scenario.emptyStore)
    /\ files (store c') = files (store (Cases.platform Scenario.emptyStore)).
Proof.
  eexists. split; [vm_compute; reflexivity|]. split; [reflexivity|].
  apply (upload_failure_leaves_object (Scenario.aiDownDbFailsAt 2) Cases.bucketUp "alice"
           Cases.resumePdf None (Cases.platform Scenario.emptyStore)).
  - vm_compute. reflexivity.
  - vm_compute. reflexivity.
Defined.


(** An eleventh file, or one file of 50 MiB: the request is answered 500 and
    neither the bucket nor the store is asked. *)
Example uploadMultiple_refusals :
  uploadMultiple Scenario.aiDown Cases.bucketUp (Some (repeat Cases.resumePdf 11)) None "alice"
                 (Cases.platform Scenario.emptyStore)
  = (Returned (Status 500), Cases.platform Scenario.emptyStore)
  /\ uploadMultiple Scenario.aiDown Cases.bucketUp
                    (Some [{| originalname := "film.mp4"; mimetype := "video/mp4";
                              size := 52428800 |}]) None "alice"
                    (Cases.platform Scenario.emptyStore)
     = (Returned (Status 500), Cases.platform Scenario.emptyStore).
Proof. split; vm_compute; reflexivity. Qed.

(** Two resumes in one request: both are stored, one folder is created. *)
Example uploadMultiple_two_resumes :
  exists uploaded c',
    uploadMultiple Scenario.aiDown Cases.bucketUp
                   (Some [Cases.resumePdf; Cases.resumeDoc]) None "alice"
                   (Cases.platform Scenario.emptyStore) = (Returned (Json uploaded), c')
    /\ map original_name uploaded = ["resume_john.pdf"; "Resume_Mary.doc"]
    /\ map name (folders (store c')) = ["Resumes"]
    /\ bucket c' = ["uploads/uuid-1.doc"; "uploads/uuid-0.pdf"].
Proof.
  eexists. eexists. split; [vm_compute; reflexivity|].
  repeat split; vm_compute; reflexivity.
Qed.

Lemma deleteRoute_removes_witness :
  ~ In "uploads/1" (bucket (snd (deleteRoute Scenario.aiDown Cases.bucketUp "1" "alice"
                                   Cases.withObjects)))
  /\ bucket (snd (deleteRoute Scenario.aiDown Cases.bucketUp "1" "alice" Cases.withObjects))
     = filter (fun p => negb (String.eqb p "uploads/1")) (bucket Cases.withObjects)
  /\ files (store (snd (deleteRoute Scenario.aiDown Cases.bucketUp "1" "alice"
                          Cases.withObjects)))
     = filter (fun r => negb (selects "1" "alice" r)) (files (store Cases.withObjects))
  /\ fst (getFile Scenario.aiDown "1" "alice"
            (store (snd (deleteRoute Scenario.aiDown Cases.bucketUp "1" "alice"
                           Cases.withObjects))))
     = Returned None.
Proof.
  apply (deleteRoute_removes Scenario.aiDown Cases.bucketUp "alice" "1" Cases.withObjects
           (Scenario.upload "1" "resume_john.pdf" "application/pdf" ["old"]));
    vm_compute; reflexivity.
Defined.

(* ------------------------------------------------------------------------- *)
(** * More on the two handlers of the claims                                  *)
(* ------------------------------------------------------------------------- *)

Section ClaimHandlers.
Variable env : Oracle.
Variable userId : string.

Local Ltac crunch1 :=
  unfold organizeOne, bind, generateFileTags, getAllFolders, createFolder, updateFile,
    db_call, ret;
  repeat (cbn -[generateFallbackTags owned_by selects];
          match goal with
          | |- context [gemini env ?a ?b ?c] => destruct (gemini env a b c) eqn:?
          | |- context [db_error env ?n] => destruct (db_error env n) eqn:?
          | |- context [find ?p ?l] => destruct (find p l) eqn:?
          | |- context [suggestedFolderName ?t] => destruct (suggestedFolderName t) eqn:?
          | |- context [String.eqb ?s ""] => destruct (String.eqb s "") eqn:?
          end);
  cbn -[generateFallbackTags owned_by selects].

(** One turn counts at most one move, only for a file it does not skip, and
    at most as many creations as moves. *)
Lemma organizeOne_counts (c c' : Counters) (g : File) (w1 : World) :
  fst (organizeOne env userId c g w1) = Returned c' ->
  created c <= created c' /\ created c' - created c <= moved c' - moved c
  /\ moved c <= moved c'
  /\ moved c' - moved c <= (if truthy (folder_id g) then 0 else 1).
Proof.
  unfold organizeOne. destruct (truthy (folder_id g)).
  - cbn [ret fst]. intros H. injection H as <-. lia.
  - unfold truthy.
    crunch1; intros H; first [discriminate H | injection H as <-; cbn [created moved]; lia].
Qed.

Lemma organize_loop_counts :
  forall (l : list File) (c c' : Counters) (w1 : World),
    fst (for_of l (organizeOne env userId) c w1) = Returned c' ->
    created c <= created c' /\ created c' - created c <= moved c' - moved c
    /\ moved c <= moved c'
    /\ moved c' - moved c <= length (unfoldered l).
Proof.
  induction l as [|g rest IH]; intros c c' w1 H.
  - cbn in H. injection H as <-. cbn [unfoldered filter length]. lia.
  - cbn [for_of] in H. unfold bind in H.
    destruct (organizeOne env userId c g w1) as [[c1|] w2] eqn:E; [|discriminate].
    pose proof (organizeOne_counts c c1 g w1) as Hone.
    rewrite E in Hone. specialize (Hone eq_refl).
    specialize (IH c1 c' w2 H).
    unfold unfoldered. cbn [filter]. fold (unfoldered rest).
    destruct (truthy (folder_id g)); cbn [negb length]; lia.
Qed.

(** X23. The report of organize-files is bounded: it never counts more new
    folders than moved files, and never more moved files than the caller has
    unfoldered files. *)
Theorem organizeFiles_report_bounds (w w' : World) (r : OrganizeReply) :
  organizeFiles env userId w = (Returned (Json r), w') ->
  foldersCreated r <= filesMoved r
  /\ filesMoved r
     <= length (unfoldered (filter (fun f => owned_by userId (user_id f)) (files w))).
Proof.
  unfold organizeFiles, try_catch, bind, getAllFiles, db_call, ret. cbn.
  destruct (db_error env (db_calls w)); cbn; [discriminate|].
  destruct (for_of _ _ _ _) as [[c|] w2] eqn:E; cbn; intros H; [|discriminate].
  injection H as <- _. cbn [foldersCreated filesMoved].
  pose proof (organize_loop_counts _ _ c _ (f_equal fst E)) as Hloop.
  cbn [created moved] in Hloop. lia.
Qed.

Lemma apply_loop_keeps_row (src : File) (i : nat) (f : File) :
  forall (l acc : list File) (w1 : World),
    (forall m, In m l -> selects (id m) userId f = false) ->
    nth_error (files w1) i = Some f ->
    nth_error (files (snd (for_of l (applyTagsTo env userId src) acc w1))) i = Some f.
Proof.
  induction l as [|m rest IH]; intros acc w1 Hsel Hrow; [exact Hrow|].
  rewrite for_of_cons.
  assert (Hone : nth_error (files (snd (applyTagsTo env userId src acc m w1))) i = Some f).
  { pose proof (updateFile_keeps_unselected env (id m) userId
                  {| upd_tags := Some (file_tags src); upd_folderId := None |} w1 i f
                  (Hsel m (or_introl eq_refl)) Hrow) as H.
    unfold applyTagsTo, try_catch, bind, ret.
    destruct (updateFile env (id m) _ userId w1) as [[[u|]|] w2]; exact H. }
  destruct (fst (applyTagsTo env userId src acc m w1)) as [acc'|]; [|exact Hone].
  apply IH; [|exact Hone]. intros m' Hm'. apply Hsel. right. exact Hm'.
Qed.

(** X24. Apply-to-similar leaves the source alone: every row that carries the
    requested identity, and every row of another user, is in its place and
    unchanged after the handler, whatever it answered. *)
Theorem applyToSimilar_keeps_source (ident : string) (w : World) (i : nat) (f : File) :
  nth_error (files w) i = Some f ->
  id f = ident \/ (truthy (Some userId) = true /\ user_id f <> userId) ->
  nth_error (files (snd (applyToSimilar env ident userId w))) i = Some f.
Proof.
  intros Hrow Hwhy.
  unfold applyToSimilar, try_catch, bind, getFile, getAllFiles, db_call, ret. cbn.
  destruct (db_error env (db_calls w)); cbn; [exact Hrow|].
  destruct (single _) as [src|]; cbn; [|exact Hrow].
  destruct (db_error env (S (db_calls w))); cbn; [exact Hrow|].
  match goal with
  | |- context [for_of ?l ?b ?a ?w0] =>
      pose proof (apply_loop_keeps_row src i f l a w0) as H;
      destruct (for_of l b a w0) as [[res|] w3]; cbn [fst snd] in *; apply H; try exact Hrow
  end.
  all: intros m Hm; destruct Hwhy as [Hid|[Ht Hne]];
    [ unfold selects; apply similarFilesOf_excludes_source in Hm;
      destruct (String.eqb_spec (id f) (id m)) as [Heq|_]; [|reflexivity];
      exfalso; apply Hm; rewrite <- Heq; exact Hid
    | exact (owned_other_not_selected (id m) userId f Ht Hne) ].
Qed.

End ClaimHandlers.

Lemma organizeFiles_report_bounds_witness :
  1 <= 2 /\ 2 <= length (unfoldered (filter (fun f => owned_by "alice" (user_id f))
                                            (files Scenario.twoResumes))).
Proof.
  eapply (organizeFiles_report_bounds Scenario.aiDown "alice" Scenario.twoResumes _
            {| success := true; foldersCreated := 1; filesMoved := 2 |}).
  vm_compute. reflexivity.
Defined.

Lemma applyToSimilar_keeps_source_witness :
  nth_error (files (snd (applyToSimilar Scenario.aiDown "1" "alice" Scenario.reports))) 0
  = Some (Scenario.upload "1" "report_q1.pdf" "application/pdf" ["report"; "q1"]).
Proof.
  apply (applyToSimilar_keeps_source Scenario.aiDown "alice" "1" Scenario.reports 0).
  - reflexivity.
  - left. reflexivity.
Defined.
